(** * ESG reporting frontend: ingestion portal, mock catalog, dashboard
      aggregation and HTTP client wrappers

    A shallow embedding of the client-side logic of the telemetry ingestion
    portal ([TelemetryIngestionPortal.jsx], [IngestionPortal.jsx],
    [TelemetryDashboard.jsx], [mocks/ingestionMocks.js], [api/client.js] and
    the legacy [api.js]) together with the properties its specification
    states about it.

    Conventions.
    - JavaScript strings are [string]s (the UTF-8 bytes of the text).
    - JavaScript numbers are rationals [Q]: every finite double is a
      rational and [<], [>] on finite doubles agree with the order of [Q].
    - JSON documents are values of [json]; objects are finite maps from
      keys to values ([gmap string json]).
    - The wall clock and [Math.random] are oracles of the [World]; event
      handlers are state transformers over the component state and the
      [World], which also records the observable effects (notices, network
      mutations, storage writes). *)

From Stdlib Require Import QArith Ascii.
From stdpp Require Import base strings list gmap pretty sorting.

Local Open Scope string_scope.

(** ** The JavaScript platform *)

Module JS.

(** *** JSON values *)

#[warnings="-register-all"]
Inductive json :=
| JNull
| JBool (b : bool)
| JNum (q : Q)
| JStr (s : string)
| JArr (l : list json)
| JObj (o : gmap string json).

(** [ToBoolean] on a JSON value: [null], [false], [0] and [""] are
    falsy, everything else (arrays and objects included) is truthy. *)
Definition truthy (v : json) : bool :=
  match v with
  | JNull => false
  | JBool b => b
  | JNum q => negb (Qeq_bool q 0)
  | JStr s => negb (bool_decide (s = ""))
  | JArr _ | JObj _ => true
  end.

(** Property read [v.k] on a value that is not [null]: [None] is
    [undefined].  Primitives and arrays have no such own property for
    the (non-index) keys read by the application. *)
Definition get (k : string) (v : json) : option json :=
  match v with
  | JObj o => o !! k
  | _ => None
  end.

(** [ToBoolean] of a possibly [undefined] value. *)
Definition truthy_opt (v : option json) : bool :=
  match v with
  | Some j => truthy j
  | None => false
  end.

Definition obj (fields : list (string * json)) : json :=
  JObj (list_to_map fields).

(** *** [String.prototype.trim] *)

Definition bytes (l : list nat) : string :=
  String.string_of_list_ascii (Ascii.ascii_of_nat <$> l).

(** The code points of ECMAScript's WhiteSpace and LineTerminator
    productions, as UTF-8 byte sequences. *)
Definition WHITE_SPACE : list string :=
  [ bytes [9]; bytes [10]; bytes [11]; bytes [12]; bytes [13]; bytes [32];
    bytes [194; 160];                       (* U+00A0 *)
    bytes [225; 154; 128];                  (* U+1680 *)
    bytes [226; 128; 128]; bytes [226; 128; 129]; bytes [226; 128; 130];
    bytes [226; 128; 131]; bytes [226; 128; 132]; bytes [226; 128; 133];
    bytes [226; 128; 134]; bytes [226; 128; 135]; bytes [226; 128; 136];
    bytes [226; 128; 137]; bytes [226; 128; 138];   (* U+2000 .. U+200A *)
    bytes [226; 128; 168]; bytes [226; 128; 169];   (* U+2028, U+2029 *)
    bytes [226; 128; 175];                  (* U+202F *)
    bytes [226; 129; 159];                  (* U+205F *)
    bytes [227; 128; 128];                  (* U+3000 *)
    bytes [239; 187; 191] ].                (* U+FEFF *)

Fixpoint strip_prefix (p s : string) : option string :=
  match p, s with
  | EmptyString, _ => Some s
  | String a p', String b s' =>
      if bool_decide (a = b) then strip_prefix p' s' else None
  | String _ _, EmptyString => None
  end.

Fixpoint strip_any (ps : list string) (s : string) : option string :=
  match ps with
  | [] => None
  | p :: ps' =>
      match strip_prefix p s with
      | Some r => Some r
      | None => strip_any ps' s
      end
  end.

Fixpoint trim_go (ws : list string) (fuel : nat) (s : string) : string :=
  match fuel with
  | O => s
  | S fuel' =>
      match strip_any ws s with
      | Some r => trim_go ws fuel' r
      | None => s
      end
  end.

Definition trimStart (s : string) : string :=
  trim_go WHITE_SPACE (String.length s) s.

Definition trimEnd (s : string) : string :=
  String.rev (trim_go (String.rev <$> WHITE_SPACE) (String.length s) (String.rev s)).

Definition trim (s : string) : string := trimEnd (trimStart s).

(** [!s.trim()] *)
Definition blank (s : string) : bool := bool_decide (trim s = "").

(** *** [Date.prototype.toISOString] *)

Section ISO.
Local Open Scope Z_scope.

Definition pad (width : nat) (n : Z) : string :=
  let digits := pretty (Z.to_N n) in
  String.string_of_list_ascii
    (replicate (width - String.length digits) "0"%char) +:+ digits.

(** Proleptic Gregorian date of a day count since 1970-01-01. *)
Definition civil_of_days (days : Z) : Z * Z * Z :=
  let z := days + 719468 in
  let era := z / 146097 in
  let doe := z - era * 146097 in
  let yoe := (doe - doe / 1460 + doe / 36524 - doe / 146096) / 365 in
  let doy := doe - (365 * yoe + yoe / 4 - yoe / 100) in
  let mp := (5 * doy + 2) / 153 in
  let d := doy - (153 * mp + 2) / 5 + 1 in
  let m := if mp <? 10 then mp + 3 else mp - 9 in
  let y := yoe + era * 400 + (if m <=? 2 then 1 else 0) in
  (y, m, d).

Definition iso_year (y : Z) : string :=
  if (0 <=? y) && (y <=? 9999) then pad 4 y
  else if y <? 0 then "-" +:+ pad 6 (- y)
  else "+" +:+ pad 6 y.

(** The time value is the number of milliseconds since the epoch. *)
Definition toISOString (ms : Z) : string :=
  let '(y, m, d) := civil_of_days (ms / 86400000) in
  let r := ms mod 86400000 in
  iso_year y +:+ "-" +:+ pad 2 m +:+ "-" +:+ pad 2 d +:+ "T" +:+
  pad 2 (r / 3600000) +:+ ":" +:+ pad 2 (r / 60000 mod 60) +:+ ":" +:+
  pad 2 (r / 1000 mod 60) +:+ "." +:+ pad 3 (r mod 1000) +:+ "Z".
End ISO.

(** *** Engine-dependent parts

    [JSON.parse] is the platform's parser: it either throws a
    [SyntaxError] (whose message is returned on the left) or yields the
    parsed value.  [Number_toString] is [Number.prototype.toString] and
    [TypeError_message] is the message of the [TypeError] raised when a
    property of a non-object value is touched in strict mode. *)
Class Engine := {
  JSON_parse : string → string + json;
  JSON_parse_blank : ∀ s, trim s = "" → ∃ e, JSON_parse s = inl e;
  Number_toString : Q → string;
  TypeError_message : json → string;
}.

(** *** The world: clock, randomness and observable effects *)

Inductive IngestionType := sustainability | legacy.

Inductive Effect :=
| Alert (message : string)
| Post (url : string) (headers : list (string * string)) (body : json)
| SetItem (key : string) (value : json)
| InvalidateQueries (queryKey : string).

(** [Date_now i] is what the [i]-th reading of the wall clock returns
    (in milliseconds since the epoch); [Math_random36 i] is what the
    [i]-th evaluation of [Math.random().toString(36).slice(2, 9)]
    returns. *)
Record World := mkWorld {
  Date_now : nat → N;
  clock_reads : nat;
  Math_random36 : nat → string;
  random_draws : nat;
  effects : list Effect;
}.

Definition M (A : Type) : Type := World → A * World.

#[global] Instance M_ret : MRet M := λ A a w, (a, w).
#[global] Instance M_bind : MBind M := λ A B k m w,
  let '(a, w') := m w in k a w'.

Definition read_clock : M N := λ w,
  (Date_now w (clock_reads w),
   mkWorld (Date_now w) (S (clock_reads w)) (Math_random36 w)
           (random_draws w) (effects w)).

Definition draw_random36 : M string := λ w,
  (Math_random36 w (random_draws w),
   mkWorld (Date_now w) (clock_reads w) (Math_random36 w)
           (S (random_draws w)) (effects w)).

Definition emit (e : Effect) : M unit := λ w,
  (tt, mkWorld (Date_now w) (clock_reads w) (Math_random36 w)
               (random_draws w) (effects w ++ [e])).

(** [new Date().toISOString()] *)
Definition new_Date_toISOString : M string :=
  t ← read_clock; mret (toISOString (Z.of_N t)).

End JS.

Import JS.

(** ** The mock payload catalog ([mocks/ingestionMocks.js]) *)

Module IngestionMocks.

(** A descriptor's [payload] is either a plain object or a zero-argument
    generator. *)
Inductive PayloadSource :=
| Static (value : json)
| Generator (thunk : M json).

Record MockDescriptor := {
  id : string;
  name : string;
  description : string;
  vertical : string;
  payload : PayloadSource;
}.

Definition now : M string := new_Date_toISOString.

Definition uniqueId : M string :=
  t ← read_clock;
  r ← draw_random36;
  mret ("mock-" +:+ pretty t +:+ "-" +:+ r).

Definition ai_training_full : MockDescriptor := {|
  id := "ai-training-full";
  name := "AI Training Data Center";
  description := "Full stack: energy, carbon, water, compute (training), hardware, data quality. Use for GPU training facilities.";
  vertical := "AI Training";
  payload := Generator (
    ts ← now; eid ← uniqueId;
    mret (obj [
        ("timestamp", JStr ts);
        ("asset_id", JStr "DC1-TRAIN-A01");
        ("region", JStr "us-west-2");
        ("source_id", JStr "mock-gateway");
        ("external_event_id", JStr eid);
        ("emission_factor_version", JStr "v1");
        ("energy", obj [
            ("facility_kwh", JNum 2400.0%Q);
            ("it_kwh", JNum 2000.0%Q);
            ("cooling_kwh", JNum 360.0%Q);
            ("generator_fuel_liters", JNum 0%Q);
            ("energy_unit", JStr "kWh") ]);
        ("carbon", obj [
            ("scope1_kg_co2e", JNum 0%Q);
            ("scope2_location_kg_co2e", JNum 480.0%Q);
            ("scope2_market_kg_co2e", JNum 420.0%Q);
            ("grid_carbon_intensity_kg_per_kwh", JNum 0.24%Q);
            ("carbon_unit", JStr "kg_co2e") ]);
        ("water", obj [
            ("withdrawal_liters", JNum 12000.0%Q);
            ("returned_liters", JNum 9600.0%Q);
            ("consumed_liters", JNum 2400.0%Q);
            ("reclaimed_liters", JNum 2400.0%Q);
            ("evaporation_liters", JNum 1800.0%Q);
            ("blowdown_liters", JNum 600.0%Q);
            ("water_unit", JStr "liters") ]);
        ("compute", obj [
            ("gpu_hours", JNum 400.0%Q);
            ("gpu_count", JNum 200%Q);
            ("run_duration_seconds", JNum 14400%Q);
            ("run_type", JStr "training");
            ("training_runs", JNum 8%Q);
            ("inference_requests", JNum 0%Q) ]);
        ("hardware", obj [
            ("utilization_pct", JNum 78.0%Q);
            ("idle_rate_pct", JNum 22.0%Q);
            ("asset_state", JStr "active") ]);
        ("data_quality", obj [
            ("completeness_pct", JNum 99.0%Q);
            ("latency_seconds", JNum 3.0%Q);
            ("outlier_flag", JBool false);
            ("drift_flag", JBool false);
            ("confidence_score", JNum 0.95%Q) ]) ]))
|}.

Definition ai_inference_serving : MockDescriptor := {|
  id := "ai-inference-serving";
  name := "AI Inference / Serving";
  description := "Energy + compute (inference requests). Use for inference-only or serving clusters.";
  vertical := "AI Inference";
  payload := Generator (
    ts ← now; eid ← uniqueId;
    mret (obj [
        ("timestamp", JStr ts);
        ("asset_id", JStr "DC2-INFER-B02");
        ("region", JStr "eu-west-1");
        ("source_id", JStr "mock-gateway");
        ("external_event_id", JStr eid);
        ("energy", obj [
            ("facility_kwh", JNum 800.0%Q);
            ("it_kwh", JNum 680.0%Q);
            ("cooling_kwh", JNum 100.0%Q);
            ("energy_unit", JStr "kWh") ]);
        ("compute", obj [
            ("gpu_hours", JNum 85.0%Q);
            ("gpu_count", JNum 50%Q);
            ("training_runs", JNum 0%Q);
            ("inference_requests", JNum 125000%Q) ]);
        ("hardware", obj [
            ("utilization_pct", JNum 62.0%Q);
            ("idle_rate_pct", JNum 38.0%Q);
            ("asset_state", JStr "active") ]) ]))
|}.

Definition colocation_energy : MockDescriptor := {|
  id := "colocation-energy";
  name := "Colocation — Energy Only";
  description := "Minimal: energy block only. Use for colo or facilities without water/compute telemetry.";
  vertical := "Colocation";
  payload := Generator (
    ts ← now; eid ← uniqueId;
    mret (obj [
        ("timestamp", JStr ts);
        ("asset_id", JStr "COLO-HALL-3");
        ("region", JStr "us-east-1");
        ("external_event_id", JStr eid);
        ("energy", obj [
            ("facility_kwh", JNum 5000.0%Q);
            ("it_kwh", JNum 4200.0%Q);
            ("cooling_kwh", JNum 700.0%Q);
            ("energy_unit", JStr "kWh") ]) ]))
|}.

Definition water_intensive : MockDescriptor := {|
  id := "water-intensive";
  name := "Water-Intensive Cooling";
  description := "Energy + water (tower, blowdown, reclaimed). Use for evaporative cooling sites.";
  vertical := "Water-Critical";
  payload := Generator (
    ts ← now; eid ← uniqueId;
    mret (obj [
        ("timestamp", JStr ts);
        ("asset_id", JStr "DC3-WATER-A01");
        ("region", JStr "us-southwest");
        ("external_event_id", JStr eid);
        ("energy", obj [
            ("facility_kwh", JNum 3000.0%Q);
            ("it_kwh", JNum 2500.0%Q);
            ("cooling_kwh", JNum 450.0%Q);
            ("energy_unit", JStr "kWh") ]);
        ("water", obj [
            ("withdrawal_liters", JNum 25000.0%Q);
            ("returned_liters", JNum 20000.0%Q);
            ("consumed_liters", JNum 5000.0%Q);
            ("reclaimed_liters", JNum 5000.0%Q);
            ("evaporation_liters", JNum 3800.0%Q);
            ("blowdown_liters", JNum 1200.0%Q);
            ("water_unit", JStr "liters") ]) ]))
|}.

Definition hpc_research : MockDescriptor := {|
  id := "hpc-research";
  name := "HPC / Research";
  description := "Energy, compute, hardware. Use for HPC or research compute clusters.";
  vertical := "HPC";
  payload := Generator (
    ts ← now; eid ← uniqueId;
    mret (obj [
        ("timestamp", JStr ts);
        ("asset_id", JStr "HPC-CLUSTER-01");
        ("region", JStr "us-central");
        ("external_event_id", JStr eid);
        ("energy", obj [
            ("facility_kwh", JNum 6000.0%Q);
            ("it_kwh", JNum 5200.0%Q);
            ("cooling_kwh", JNum 720.0%Q);
            ("energy_unit", JStr "kWh") ]);
        ("compute", obj [
            ("gpu_hours", JNum 1200.0%Q);
            ("gpu_count", JNum 400%Q);
            ("run_duration_seconds", JNum 43200%Q);
            ("run_type", JStr "training");
            ("training_runs", JNum 24%Q);
            ("inference_requests", JNum 0%Q) ]);
        ("hardware", obj [
            ("utilization_pct", JNum 88.0%Q);
            ("idle_rate_pct", JNum 12.0%Q);
            ("asset_state", JStr "active") ]) ]))
|}.

Definition edge_minimal : MockDescriptor := {|
  id := "edge-minimal";
  name := "Edge / Minimal";
  description := "Minimal energy + compute. Use for edge or small sites with limited sensors.";
  vertical := "Edge";
  payload := Generator (
    ts ← now; eid ← uniqueId;
    mret (obj [
        ("timestamp", JStr ts);
        ("asset_id", JStr "EDGE-01");
        ("region", JStr "on-prem");
        ("external_event_id", JStr eid);
        ("energy", obj [
            ("facility_kwh", JNum 120.0%Q);
            ("it_kwh", JNum 100.0%Q);
            ("cooling_kwh", JNum 18.0%Q);
            ("energy_unit", JStr "kWh") ]);
        ("compute", obj [
            ("gpu_hours", JNum 12.0%Q);
            ("gpu_count", JNum 4%Q);
            ("training_runs", JNum 0%Q);
            ("inference_requests", JNum 500%Q) ]) ]))
|}.

Definition full_benchmark : MockDescriptor := {|
  id := "full-benchmark";
  name := "Full Benchmark (All Blocks)";
  description := "All blocks populated — carbon, water, energy, compute, hardware, data_quality. Schema reference.";
  vertical := "Reference";
  payload := Generator (
    ts ← now; eid ← uniqueId;
    mret (obj [
        ("timestamp", JStr ts);
        ("asset_id", JStr "DC1-RACK-A01");
        ("region", JStr "us-west");
        ("source_id", JStr "gateway-01");
        ("external_event_id", JStr eid);
        ("emission_factor_version", JStr "v1");
        ("energy", obj [
            ("facility_kwh", JNum 1200.0%Q);
            ("it_kwh", JNum 1000.0%Q);
            ("cooling_kwh", JNum 180.0%Q);
            ("generator_fuel_liters", JNum 0%Q);
            ("energy_unit", JStr "kWh") ]);
        ("water", obj [
            ("withdrawal_liters", JNum 8000.0%Q);
            ("returned_liters", JNum 6400.0%Q);
            ("consumed_liters", JNum 1600.0%Q);
            ("reclaimed_liters", JNum 1600.0%Q);
            ("evaporation_liters", JNum 1200.0%Q);
            ("blowdown_liters", JNum 400.0%Q);
            ("water_unit", JStr "liters") ]);
        ("compute", obj [
            ("gpu_hours", JNum 200.0%Q);
            ("gpu_count", JNum 100%Q);
            ("run_duration_seconds", JNum 7200%Q);
            ("run_type", JStr "training");
            ("training_runs", JNum 4%Q);
            ("inference_requests", JNum 0%Q) ]);
        ("hardware", obj [
            ("utilization_pct", JNum 75.0%Q);
            ("idle_rate_pct", JNum 25.0%Q);
            ("asset_state", JStr "active") ]);
        ("data_quality", obj [
            ("completeness_pct", JNum 98.0%Q);
            ("latency_seconds", JNum 5.0%Q);
            ("outlier_flag", JBool false);
            ("drift_flag", JBool false);
            ("confidence_score", JNum 0.92%Q) ]) ]))
|}.

Definition carbon_intensive : MockDescriptor := {|
  id := "carbon-intensive";
  name := "Carbon-Intensive Region";
  description := "Carbon block + energy. Use to test Scope 1/2 and grid intensity handling.";
  vertical := "Carbon-Focused";
  payload := Generator (
    ts ← now; eid ← uniqueId;
    mret (obj [
        ("timestamp", JStr ts);
        ("asset_id", JStr "DC-HIGH-CARBON");
        ("region", JStr "high-grid-intensity");
        ("external_event_id", JStr eid);
        ("energy", obj [
            ("facility_kwh", JNum 1500.0%Q);
            ("it_kwh", JNum 1250.0%Q);
            ("cooling_kwh", JNum 220.0%Q);
            ("energy_unit", JStr "kWh") ]);
        ("carbon", obj [
            ("scope1_kg_co2e", JNum 50.0%Q);
            ("scope2_location_kg_co2e", JNum 600.0%Q);
            ("scope2_market_kg_co2e", JNum 500.0%Q);
            ("grid_carbon_intensity_kg_per_kwh", JNum 0.48%Q);
            ("carbon_unit", JStr "kg_co2e") ]) ]))
|}.

Definition data_quality_focus : MockDescriptor := {|
  id := "data-quality-focus";
  name := "Data Quality Focus";
  description := "Compute + hardware + data_quality. Use to test confidence and outlier/drift flags.";
  vertical := "Data Quality";
  payload := Generator (
    ts ← now; eid ← uniqueId;
    mret (obj [
        ("timestamp", JStr ts);
        ("asset_id", JStr "DC-QUALITY-01");
        ("region", JStr "us-west");
        ("external_event_id", JStr eid);
        ("compute", obj [
            ("gpu_hours", JNum 100.0%Q);
            ("gpu_count", JNum 50%Q);
            ("training_runs", JNum 2%Q);
            ("inference_requests", JNum 10000%Q) ]);
        ("hardware", obj [
            ("utilization_pct", JNum 70.0%Q);
            ("idle_rate_pct", JNum 30.0%Q);
            ("asset_state", JStr "active") ]);
        ("data_quality", obj [
            ("completeness_pct", JNum 95.0%Q);
            ("latency_seconds", JNum 8.0%Q);
            ("outlier_flag", JBool false);
            ("drift_flag", JBool true);
            ("confidence_score", JNum 0.85%Q) ]) ]))
|}.

Definition SUSTAINABILITY_MOCKS : list MockDescriptor :=
  [ ai_training_full;
    ai_inference_serving;
    colocation_energy;
    water_intensive;
    hpc_research;
    edge_minimal;
    full_benchmark;
    carbon_intensive;
    data_quality_focus ].

Definition legacy_normal : MockDescriptor := {|
  id := "legacy-normal";
  name := "Legacy — Normal";
  description := "CO₂ and temperature within safe range. Expect NORMAL status.";
  vertical := "Alerts";
  payload := Generator (
    mret (obj [
        ("CO2_ppm", JNum 420%Q);
        ("Temperature_C", JNum 28.5%Q) ]))
|}.

Definition legacy_warning : MockDescriptor := {|
  id := "legacy-warning";
  name := "Legacy — Warning";
  description := "One or both metrics near threshold. May return WARNING.";
  vertical := "Alerts";
  payload := Generator (
    mret (obj [
        ("CO2_ppm", JNum 550%Q);
        ("Temperature_C", JNum 38.0%Q) ]))
|}.

Definition legacy_critical : MockDescriptor := {|
  id := "legacy-critical";
  name := "Legacy — Critical";
  description := "Exceeds critical thresholds. Expect ALERT_TRIGGERED.";
  vertical := "Alerts";
  payload := Generator (
    mret (obj [
        ("CO2_ppm", JNum 650%Q);
        ("Temperature_C", JNum 48.0%Q) ]))
|}.

Definition LEGACY_MOCKS : list MockDescriptor :=
  [ legacy_normal;
    legacy_warning;
    legacy_critical ].

Definition getMockPayload (mock : MockDescriptor) : M json :=
  match payload mock with
  | Generator thunk => thunk
  | Static value => mret value
  end.

End IngestionMocks.

(** ** Dashboard aggregation ([DashboardTab], [TelemetryDashboard]) *)

Module Dashboard.

(** A metric of the report.  [value] is [None] when the field is
    missing ([undefined]). *)
Record Metric := {
  metric_type : string;
  value : option Q;
  unit : string;
  asset_id : option string;
  region : option string;
  timestamp_utc : option string;
}.

(** The metrics report: a mapping from category name to a list of
    metrics; a category may be missing. *)
Record Report := {
  carbon : option (list Metric);
  water : option (list Metric);
  efficiency : option (list Metric);
  hardware : option (list Metric);
  data_quality : option (list Metric);
  sustainability_score : option Q;
}.

Definition Qltb (x y : Q) : bool := negb (Qle_bool y x).

(** [v > c] and [v < c] on a possibly [undefined] number: comparisons
    with [undefined] are false. *)
Definition gt (v : option Q) (c : Q) : bool :=
  match v with
  | Some q => Qltb c q
  | None => false
  end.

Definition lt (v : option Q) (c : Q) : bool :=
  match v with
  | Some q => Qltb q c
  | None => false
  end.

Definition is_type (t : string) (m : Metric) : bool :=
  bool_decide (metric_type m = t).

(** [DashboardTab]: the check handed to every metric section. *)
Definition isCritical (metric : Metric) : bool :=
  (is_type "pue" metric && gt (value metric) 2.0)
  || (is_type "utilization_pct" metric && lt (value metric) 30)
  || (is_type "wue" metric && gt (value metric) 2.0).

(** [TelemetryDashboard]: the same check, written out again in
    [MetricDetailModal] and in [MetricSection]. *)
Definition MetricDetailModal_isCritical (metric : Metric) : bool :=
  (is_type "pue" metric && gt (value metric) 2.0)
  || (is_type "utilization_pct" metric && lt (value metric) 30)
  || (is_type "wue" metric && gt (value metric) 2.0).

Definition MetricSection_isCritical (metric : Metric) : bool :=
  (is_type "pue" metric && gt (value metric) 2.0)
  || (is_type "utilization_pct" metric && lt (value metric) 30)
  || (is_type "wue" metric && gt (value metric) 2.0).

(** [x || null] on a possibly [undefined] number: [0] and [undefined]
    both become [null]. *)
Definition or_null (v : option Q) : option Q :=
  match v with
  | Some q => if Qeq_bool q 0 then None else Some q
  | None => None
  end.

(** [x || 0] *)
Definition or_zero (v : option Q) : Q :=
  match v with
  | Some q => q
  | None => 0
  end.

(** [metrics?.find((m) => m.metric_type === t)] *)
Definition find_type (t : string) (metrics : option (list Metric)) : option Metric :=
  match metrics with
  | Some l => List.find (is_type t) l
  | None => None
  end.

(** [metrics?.reduce((sum, m) => sum + (m.value || 0), 0) || 0].  The
    sum is taken in the rationals; the code rounds every addition to a
    double, so the two agree only where no addition rounds.  No property
    below reads a total. *)
Definition total (metrics : option (list Metric)) : Q :=
  match metrics with
  | Some l => fold_left (λ sum m, sum + or_zero (value m))%Q l 0%Q
  | None => 0
  end.

Record SummaryStats := {
  totalCarbon : Q;
  totalWater : Q;
  avgPUE : option Q;
  avgUtilization : option Q;
  latestCarbonIntensity : option Metric;
  sustainabilityScore : option Q;
}.

(** [DashboardTab] of the combined portal. *)
Definition summaryStats (data : Report) : SummaryStats := {|
  totalCarbon := total (carbon data);
  totalWater := total (water data);
  avgPUE := or_null (m ← find_type "pue" (efficiency data); value m);
  avgUtilization :=
    or_null (m ← find_type "utilization_pct" (hardware data); value m);
  latestCarbonIntensity := find_type "carbon_intensity" (carbon data);
  sustainabilityScore := or_null (sustainability_score data);
|}.

(** [TelemetryDashboard]: the stand-alone dashboard derives the first
    four statistics only. *)
Definition TelemetryDashboard_summaryStats (data : Report) : SummaryStats := {|
  totalCarbon := total (carbon data);
  totalWater := total (water data);
  avgPUE := or_null (m ← find_type "pue" (efficiency data); value m);
  avgUtilization :=
    or_null (m ← find_type "utilization_pct" (hardware data); value m);
  latestCarbonIntensity := None;
  sustainabilityScore := None;
|}.

(** The summary critical flags:
    [summaryStats.avgPUE != null && summaryStats.avgPUE > 2.0] and
    [summaryStats.avgUtilization != null && summaryStats.avgUtilization < 30]. *)
Definition avgPUE_critical (s : SummaryStats) : bool :=
  bool_decide (avgPUE s ≠ None) && gt (avgPUE s) 2.0.

Definition avgUtilization_critical (s : SummaryStats) : bool :=
  bool_decide (avgUtilization s ≠ None) && lt (avgUtilization s) 30.

End Dashboard.

(** ** API wrappers ([api/telemetry.js], [api/alerts.js]) *)

Module Api.

(** [ingestTelemetry(payload, options)]: the correlation metadata travels
    as headers and as a query parameter, never in the body. *)
Definition ingest_headers (sourceId ingestionSource : string) : list (string * string) :=
  (if bool_decide (sourceId = "") then [] else [("X-Source-ID", sourceId)])
  ++ (if bool_decide (ingestionSource = "") then []
      else [("X-Ingestion-Source", ingestionSource)]).

Definition ingest_url (includeScorecard : bool) : string :=
  if includeScorecard then "/api/telemetry/ingest?scorecard=1"
  else "/api/telemetry/ingest".

Definition ingestTelemetry (payload : json)
    (sourceId ingestionSource : string) (includeScorecard : bool) : M unit :=
  emit (Post (ingest_url includeScorecard)
             (ingest_headers sourceId ingestionSource) payload).

Definition processTelemetry (body : json) : M unit :=
  emit (Post "/api/alerts/process-telemetry" [] body).

End Api.

(** ** The combined portal ([TelemetryIngestionPortal.jsx]) *)

Module Portal.

Definition CUSTOM_MOCKS_STORAGE_KEY : string := "esg-ingestion-custom-mocks".
Definition ACTIVE_TAB_STORAGE_KEY : string := "esg-telemetry-active-tab".

Definition type_name (t : IngestionType) : string :=
  match t with
  | sustainability => "sustainability"
  | legacy => "legacy"
  end.

(** *** Custom mocks *)

Record Mock := {
  id : string;
  name : string;
  payload : string;
  type : IngestionType;
  savedAt : string;
}.

Definition Mock_to_json (m : Mock) : json :=
  obj [ ("id", JStr (id m)); ("name", JStr (name m));
        ("payload", JStr (payload m)); ("type", JStr (type_name (type m)));
        ("savedAt", JStr (savedAt m)) ].

(** State of [IngestionTab].  An array held in React state is compared
    by identity: [customMocks_ref] names the array currently held, and
    [persisted_ref] the one the persistence effect last ran for. *)
Record IngestionTab := {
  ingestionType : IngestionType;
  jsonInput : string;
  sourceId : string;
  ingestionSource : string;
  includeScorecard : bool;
  customMockName : string;
  customMocks : list Mock;
  customMocks_ref : nat;
  persisted_ref : nat;
}.

Definition setJsonInput (v : string) (st : IngestionTab) : IngestionTab :=
  {| ingestionType := ingestionType st; jsonInput := v;
     sourceId := sourceId st; ingestionSource := ingestionSource st;
     includeScorecard := includeScorecard st;
     customMockName := customMockName st; customMocks := customMocks st;
     customMocks_ref := customMocks_ref st;
     persisted_ref := persisted_ref st |}.

Definition setCustomMockName (v : string) (st : IngestionTab) : IngestionTab :=
  {| ingestionType := ingestionType st; jsonInput := jsonInput st;
     sourceId := sourceId st; ingestionSource := ingestionSource st;
     includeScorecard := includeScorecard st;
     customMockName := v; customMocks := customMocks st;
     customMocks_ref := customMocks_ref st;
     persisted_ref := persisted_ref st |}.

Definition setIngestionType (v : IngestionType) (st : IngestionTab) : IngestionTab :=
  {| ingestionType := v; jsonInput := jsonInput st;
     sourceId := sourceId st; ingestionSource := ingestionSource st;
     includeScorecard := includeScorecard st;
     customMockName := customMockName st; customMocks := customMocks st;
     customMocks_ref := customMocks_ref st;
     persisted_ref := persisted_ref st |}.

(** [setCustomMocks((prev) => f(prev))]: both updaters of the component
    build a new array, so the state always receives a fresh reference. *)
Definition setCustomMocks (f : list Mock → list Mock) (st : IngestionTab) : IngestionTab :=
  {| ingestionType := ingestionType st; jsonInput := jsonInput st;
     sourceId := sourceId st; ingestionSource := ingestionSource st;
     includeScorecard := includeScorecard st;
     customMockName := customMockName st;
     customMocks := f (customMocks st);
     customMocks_ref := S (customMocks_ref st);
     persisted_ref := persisted_ref st |}.

(** The persistence effect, [useEffect(..., [customMocks])]: after a
    render it runs when the array held in state is not the one it last
    ran for, and writes the whole list to storage. *)
Definition persist_customMocks (st : IngestionTab) : M IngestionTab :=
  if bool_decide (customMocks_ref st = persisted_ref st) then mret st
  else
    emit (SetItem CUSTOM_MOCKS_STORAGE_KEY (JArr (Mock_to_json <$> customMocks st)));;
    mret {| ingestionType := ingestionType st; jsonInput := jsonInput st;
            sourceId := sourceId st; ingestionSource := ingestionSource st;
            includeScorecard := includeScorecard st;
            customMockName := customMockName st;
            customMocks := customMocks st;
            customMocks_ref := customMocks_ref st;
            persisted_ref := customMocks_ref st |}.

(** The component as mounted with the list [stored] read from storage:
    the initial values of the state hooks, after the effects of the
    first render have run. *)
Definition mounted (stored : list Mock) : IngestionTab :=
  {| ingestionType := sustainability; jsonInput := "";
     sourceId := ""; ingestionSource := "manual-entry";
     includeScorecard := false; customMockName := "";
     customMocks := stored; customMocks_ref := 0; persisted_ref := 0 |}.

(** An event: the handler runs to completion, then React commits the
    new state and runs the effects. *)
Definition dispatch (handler : IngestionTab → M IngestionTab)
    (st : IngestionTab) : M IngestionTab :=
  st' ← handler st; persist_customMocks st'.

Section Handlers.
Context `{Engine}.

Definition handleSaveCustomMock (st : IngestionTab) : M IngestionTab :=
  if blank (jsonInput st) || blank (customMockName st) then mret st
  else
    match JSON_parse (jsonInput st) with
    | inr _ =>
        t ← read_clock;
        saved ← new_Date_toISOString;
        let newMock := {|
          id := "custom-" +:+ pretty t;
          name := trim (customMockName st);
          payload := trim (jsonInput st);
          type := ingestionType st;
          savedAt := saved;
        |} in
        mret (setCustomMockName "" (setCustomMocks (λ prev, newMock :: prev) st))
    | inl _ =>
        emit (Alert "Invalid JSON. Fix payload before saving.");;
        mret st
    end.

(** The user names the payload in the buffer and saves it. *)
Definition save_as (name' buffer : string) (mode : IngestionType)
    (st : IngestionTab) : M IngestionTab :=
  dispatch handleSaveCustomMock
    (setIngestionType mode (setJsonInput buffer (setCustomMockName name' st))).

Fixpoint save_all (inputs : list (string * string * IngestionType))
    (st : IngestionTab) : M IngestionTab :=
  match inputs with
  | [] => mret st
  | (name', buffer, mode) :: rest =>
      st' ← save_as name' buffer mode st; save_all rest st'
  end.

Definition handleDeleteCustomMock (id' : string) (st : IngestionTab) : M IngestionTab :=
  mret (setCustomMocks (λ prev, filter (λ m, id m ≠ id') prev) st).

(** [sustainabilityMutation.mutate] and [legacyMutation.mutate]: the
    mutation function issues the network call. *)
Definition mutate (st : IngestionTab) (mode : IngestionType) (payload : json) : M unit :=
  match mode with
  | sustainability =>
      Api.ingestTelemetry payload (sourceId st) (ingestionSource st)
                          (includeScorecard st)
  | legacy => Api.processTelemetry payload
  end.

(** The sustainability branch of [handleSubmit]:
    [if (!payload.timestamp) payload.timestamp = new Date().toISOString()].
    Reading a property of [null] throws; so does, in a module (strict
    code), writing a property of a primitive, after the right-hand
    side has been evaluated.  An array accepts the property, which
    JSON serialisation of the body then leaves out. *)
Definition ensure_timestamp (payload : json) : M (string + json) :=
  match payload with
  | JNull => mret (inl (TypeError_message payload))
  | JObj o =>
      if truthy_opt (o !! "timestamp") then mret (inr payload)
      else
        ts ← new_Date_toISOString;
        mret (inr (JObj (<["timestamp" := JStr ts]> o)))
  | JArr _ =>
      _ ← new_Date_toISOString;
      mret (inr payload)
  | JBool _ | JNum _ | JStr _ =>
      _ ← new_Date_toISOString;
      mret (inl (TypeError_message payload))
  end.

Definition handleSubmit (st : IngestionTab) : M IngestionTab :=
  if blank (jsonInput st) then
    emit (Alert "Please enter JSON payload or load an example");;
    mret st
  else
    match JSON_parse (jsonInput st) with
    | inr payload =>
        match ingestionType st with
        | sustainability =>
            r ← ensure_timestamp payload;
            match r with
            | inr body => mutate st sustainability body;; mret st
            | inl e => emit (Alert ("Invalid JSON: " +:+ e));; mret st
            end
        | legacy => mutate st legacy payload;; mret st
        end
    | inl e =>
        emit (Alert ("Invalid JSON: " +:+ e));;
        mret st
    end.

End Handlers.

(** *** The shell and its history log *)

Record HistoryEntry := {
  entry_id : N;
  timestamp : string;
  status : string;
  entry_type : IngestionType;
  data : json;
}.

Record Shell := {
  activeTab : string;
  ingestionHistory : list HistoryEntry;
}.

(** [useState([])]; the active tab comes from storage, [dashboard] by
    default. *)
Definition initial (tab : string) : Shell :=
  {| activeTab := tab; ingestionHistory := [] |}.

(** [handleIngestSuccess(entry)], called with [{ type, data }]. *)
Definition handleIngestSuccess (type' : IngestionType) (data' : json)
    (sh : Shell) : M Shell :=
  t ← read_clock;
  ts ← new_Date_toISOString;
  mret {|
    activeTab := "dashboard";
    ingestionHistory :=
      {| entry_id := t; timestamp := ts; status := "success";
         entry_type := type'; data := data' |}
      :: take 19 (ingestionHistory sh);
  |}.

(** The [Clear History] button. *)
Definition clearHistory (sh : Shell) : M Shell :=
  mret {| activeTab := activeTab sh; ingestionHistory := [] |}.

Definition setActiveTab (tab : string) (sh : Shell) : M Shell :=
  mret {| activeTab := tab; ingestionHistory := ingestionHistory sh |}.

(** A run of successful submissions, oldest first. *)
Fixpoint ingest_all (subs : list (IngestionType * json)) (sh : Shell) : M Shell :=
  match subs with
  | [] => mret sh
  | (mode, d) :: rest => sh' ← handleIngestSuccess mode d sh; ingest_all rest sh'
  end.

(** [onSuccess] of either mutation of [IngestionTab]. *)
Definition onSuccess (mode : IngestionType) (data' : json)
    (st : IngestionTab) (sh : Shell) : M (IngestionTab * Shell) :=
  emit (InvalidateQueries "telemetry-metrics");;
  sh' ← handleIngestSuccess mode data' sh;
  mret (setJsonInput "" st, sh').

End Portal.

(** ** The stand-alone ingestion page ([IngestionPortal.jsx]) *)

Module IngestionPortal.

Import Portal.

(** [onSuccess] of [sustainabilityMutation] and of [legacyMutation]: this
    page keeps its own history in the component. *)
Definition onSuccess (mode : IngestionType) (data' : json)
    (history : list HistoryEntry) : M (list HistoryEntry) :=
  t ← read_clock;
  ts ← new_Date_toISOString;
  mret ({| entry_id := t; entry_type := mode; timestamp := ts;
           status := "success"; data := data' |}
        :: take 9 history).

Fixpoint ingest_all (subs : list (IngestionType * json))
    (history : list HistoryEntry) : M (list HistoryEntry) :=
  match subs with
  | [] => mret history
  | (mode, d) :: rest => h ← onSuccess mode d history; ingest_all rest h
  end.

End IngestionPortal.

(** ** HTTP client wrappers *)

Module Http.

(** The uniform error thrown by both wrappers. *)
Record ApiError := {
  message : string;
  status : option Z;
  data : option json;
}.

Section ToString.
Context `{Engine}.

(** [String(v)], as applied by [new Error(v)].  An array prints its
    elements separated by commas, [null] elements as nothing. *)
Fixpoint ToString (v : json) : string :=
  match v with
  | JNull => "null"
  | JBool true => "true"
  | JBool false => "false"
  | JNum q => Number_toString q
  | JStr s => s
  | JArr l =>
      (fix join (l : list json) : string :=
         match l with
         | [] => ""
         | [x] => match x with JNull => "" | _ => ToString x end
         | x :: rest =>
             (match x with JNull => "" | _ => ToString x end)
             +:+ "," +:+ join rest
         end) l
  | JObj _ => "[object Object]"
  end.

(** [new Error(message)]: an [undefined] message leaves the empty
    default. *)
Definition new_Error (message : option json) : string :=
  match message with
  | Some v => ToString v
  | None => ""
  end.
End ToString.

(** [a ?? b] with [None] for [undefined] and [JNull] for [null]. *)
Definition nullish (v : option json) : bool :=
  match v with
  | None | Some JNull => true
  | Some _ => false
  end.

End Http.

(** *** The axios client ([api/client.js]) *)

Module Client.

Import Http.

(** An axios failure: the transport's own message and, when the server
    answered, the response with its status and parsed body. *)
Record Response := {
  response_status : Z;
  response_data : option json;
}.

Record AxiosError := {
  axios_message : string;
  response : option Response;
}.

Definition typeof_object (v : json) : bool :=
  match v with
  | JNull | JArr _ | JObj _ => true
  | _ => false
  end.

(** [errorMessage(data)]; [None] is the [null] result. *)
Definition errorMessage (data : option json) : option json :=
  match data with
  | None => None
  | Some d =>
      if negb (truthy d) then None
      else
        let err := get "error" d in
        match err with
        | Some e =>
            if truthy e && typeof_object e && truthy_opt (get "message" e)
            then get "message" e
            else
              match e with
              | JStr _ => Some e
              | _ =>
                  if nullish (get "message" d) then None else get "message" d
              end
        | None =>
            if nullish (get "message" d) then None else get "message" d
        end
  end.

Section Interceptor.
Context `{Engine}.

(** The rejection handler of the response interceptor. *)
Definition on_rejected (err : AxiosError) : ApiError :=
  let data := r ← response err; response_data r in
  let message :=
    match errorMessage data with
    | Some m => ToString m
    | None => axios_message err
    end in
  {| message := message;
     status := response_status <$> response err;
     data := data |}.
End Interceptor.

End Client.

(** *** The fetch wrapper of the legacy single-page application ([api.js]) *)

Module LegacyApi.

Import Http.

Record FetchResponse := {
  res_status : Z;
  res_statusText : string;
  res_text : string;
}.

(** [res.ok]: the status is in the range 200-299. *)
Definition ok (res : FetchResponse) : bool :=
  bool_decide (200 ≤ res_status res < 300)%Z.

Section Request.
Context `{Engine}.

(** [text ? JSON.parse(text) : null], the raw text when parsing fails. *)
Definition parse_body (text : string) : json :=
  if bool_decide (text = "") then JNull
  else
    match JSON_parse text with
    | inr v => v
    | inl _ => JStr text
    end.

(** [data?.k] *)
Definition opt_get (k : string) (data : json) : option json := get k data.

(** [data?.error || data?.message || res.statusText || `HTTP ${res.status}`] *)
Definition error_text (res : FetchResponse) (data : json) : string :=
  if truthy_opt (opt_get "error" data) then new_Error (opt_get "error" data)
  else if truthy_opt (opt_get "message" data) then new_Error (opt_get "message" data)
  else if negb (bool_decide (res_statusText res = "")) then res_statusText res
  else "HTTP " +:+ pretty (res_status res).

(** The part of [request] after the response has arrived: the parsed
    body, or the thrown error. *)
Definition request (res : FetchResponse) : ApiError + json :=
  let data := parse_body (res_text res) in
  if negb (ok res) then
    inl {| message := error_text res data;
           status := Some (res_status res);
           data := Some data |}
  else inr data.
End Request.

End LegacyApi.

(** ** Display names of metrics ([formatMetricName]) *)

Module Format.

(** [\w]: an ASCII letter, digit or underscore. *)
Definition is_word (c : ascii) : bool :=
  let n := nat_of_ascii c in
  (((48 <=? n) && (n <=? 57)) || ((65 <=? n) && (n <=? 90))
   || ((97 <=? n) && (n <=? 122)) || (n =? 95))%nat.

(** [l.toUpperCase()] on one character matched by [\w]. *)
Definition toUpperCase (c : ascii) : ascii :=
  let n := nat_of_ascii c in
  if ((97 <=? n) && (n <=? 122))%nat then Ascii.ascii_of_nat (n - 32) else c.

(** [.replace(/_/g, ' ')] *)
Fixpoint underscores_to_spaces (s : string) : string :=
  match s with
  | EmptyString => EmptyString
  | String c r =>
      String (if bool_decide (c = "_"%char) then " "%char else c)
             (underscores_to_spaces r)
  end.

(** [.replace(/\b\w/g, (l) => l.toUpperCase())]: a word character is
    matched when it starts the string or follows a character that is not
    a word character. *)
Fixpoint capitalize_words (after_word : bool) (s : string) : string :=
  match s with
  | EmptyString => EmptyString
  | String c r =>
      String (if is_word c && negb after_word then toUpperCase c else c)
             (capitalize_words (is_word c) r)
  end.

(** [.replace(/pat/g, rep)] for a literal, non-empty [pat]: the matches
    are found from left to right and do not overlap; [skip] counts the
    characters of the current match still to be passed over. *)
Fixpoint replace_go (pat rep : string) (skip : nat) (s : string) : string :=
  match s with
  | EmptyString => EmptyString
  | String c r =>
      match skip with
      | S k => replace_go pat rep k r
      | O =>
          match strip_prefix pat s with
          | Some _ => rep +:+ replace_go pat rep (String.length pat - 1) r
          | None => String c (replace_go pat rep 0 r)
          end
      end
  end.

Definition replace_all (pat rep : string) (s : string) : string :=
  replace_go pat rep 0 s.

(** The literal replacements of [formatMetricName], in their order. *)
Definition REPLACEMENTS : list (string * string) :=
  [ ("Kg Co2e", "kg CO₂e"); ("Co2e", "CO₂e"); ("Pct", "%"); ("Per", "per");
    ("Gpu", "GPU"); ("Kwh", "kWh"); ("Liters", "Liters"); ("Wue", "WUE");
    ("Pue", "PUE"); ("Dcie", "DCiE") ].

Definition formatMetricName (metricType : string) : string :=
  fold_left (λ acc '(pat, rep), replace_all pat rep acc) REPLACEMENTS
            (capitalize_words false (underscores_to_spaces metricType)).

End Format.

(** ** Metric sections ([MetricSection]) *)

Module Sections.

Import Dashboard.

Record Card := {
  title : string;
  card_value : option Q;
  card_unit : string;
  subtitle : option string;
  critical : bool;
}.

(** A possibly missing string is truthy when present and not empty. *)
Definition present (s : option string) : option string :=
  match s with
  | Some v => if bool_decide (v = "") then None else Some v
  | None => None
  end.

(** [MetricSection] of the combined portal: the section shows its empty
    message when there is no metric, one card per metric otherwise; the
    critical check is optional. *)
Definition MetricSection (metrics : option (list Metric)) (emptyMessage : string)
    (criticalCheck : option (Metric → bool)) : string + list Card :=
  match metrics with
  | None | Some [] => inl emptyMessage
  | Some l =>
      inr ((λ metric,
              {| title := Format.formatMetricName (metric_type metric);
                 card_value := value metric;
                 card_unit := unit metric;
                 subtitle :=
                   match present (asset_id metric) with
                   | Some a => Some ("Asset: " +:+ a)
                   | None =>
                       match present (region metric) with
                       | Some r => Some ("Region: " +:+ r)
                       | None => None
                       end
                   end;
                 critical :=
                   match criticalCheck with
                   | Some check => check metric
                   | None => false
                   end |}) <$> l)
  end.

(** The five sections of [DashboardTab], top to bottom. *)
Definition DashboardTab_sections (data : Report) : list (string + list Card) :=
  [ MetricSection (Some (default [] (carbon data)))
      "No carbon metrics available. Ingest telemetry with carbon data to see metrics."
      (Some isCritical);
    MetricSection (Some (default [] (water data)))
      "No water metrics available. Ingest telemetry with water data to see metrics."
      (Some isCritical);
    MetricSection (Some (default [] (efficiency data)))
      "No efficiency metrics available. Ingest telemetry with efficiency data to see metrics."
      (Some isCritical);
    MetricSection (Some (default [] (hardware data)))
      "No hardware metrics available. Ingest telemetry with hardware data to see metrics."
      (Some isCritical);
    MetricSection (Some (default [] (data_quality data)))
      "No data quality metrics available. Ingest telemetry with data quality data to see metrics."
      None ].

(** [MetricSection] of the stand-alone dashboard: the check is written
    into the section, and identifiers are shown with spaces for
    underscores. *)
Definition TelemetryDashboard_MetricSection (metrics : option (list Metric))
    (emptyMessage : string) : string + list Card :=
  match metrics with
  | None | Some [] => inl emptyMessage
  | Some l =>
      inr ((λ metric,
              {| title := Format.formatMetricName (metric_type metric);
                 card_value := value metric;
                 card_unit := unit metric;
                 subtitle :=
                   match present (asset_id metric) with
                   | Some a => Some ("Asset: " +:+ Format.underscores_to_spaces a)
                   | None =>
                       match present (region metric) with
                       | Some r => Some ("Region: " +:+ Format.underscores_to_spaces r)
                       | None => None
                       end
                   end;
                 critical := MetricSection_isCritical metric |}) <$> l)
  end.

Definition TelemetryDashboard_sections (data : Report) : list (string + list Card) :=
  [ TelemetryDashboard_MetricSection (Some (default [] (carbon data)))
      "No carbon metrics available. Ingest telemetry with carbon data to see metrics.";
    TelemetryDashboard_MetricSection (Some (default [] (water data)))
      "No water metrics available. Ingest telemetry with water data to see metrics.";
    TelemetryDashboard_MetricSection (Some (default [] (efficiency data)))
      "No efficiency metrics available. Ingest telemetry with efficiency data to see metrics.";
    TelemetryDashboard_MetricSection (Some (default [] (hardware data)))
      "No hardware metrics available. Ingest telemetry with hardware data to see metrics.";
    TelemetryDashboard_MetricSection (Some (default [] (data_quality data)))
      "No data quality metrics available. Ingest telemetry with data quality data to see metrics." ].

End Sections.

(** ** Events of the ingestion tab and of the shell *)

Module Events.

Import Portal.

(** The [Load] button of a custom mock: the stored mode and payload text
    go into the edit buffer; the stored record is not touched. *)
Definition loadCustomMock (mock : Mock) (st : IngestionTab) : M IngestionTab :=
  mret (setJsonInput (payload mock) (setIngestionType (type mock) st)).

Inductive TabEvent :=
| Save (name' buffer : string) (mode : IngestionType)
| Delete (id' : string)
| Load (mock : Mock).

Section Run.
Context `{Engine}.

Definition tab_step (ev : TabEvent) (st : IngestionTab) : M IngestionTab :=
  match ev with
  | Save name' buffer mode => save_as name' buffer mode st
  | Delete id' => dispatch (handleDeleteCustomMock id') st
  | Load mock => dispatch (loadCustomMock mock) st
  end.

Fixpoint tab_run (evs : list TabEvent) (st : IngestionTab) : M IngestionTab :=
  match evs with
  | [] => mret st
  | ev :: rest => st' ← tab_step ev st; tab_run rest st'
  end.

End Run.

Inductive ShellEvent :=
| Ingested (mode : IngestionType) (data' : json)
| Cleared
| Selected (tab : string).

Definition shell_step (ev : ShellEvent) (sh : Shell) : M Shell :=
  match ev with
  | Ingested mode d => handleIngestSuccess mode d sh
  | Cleared => clearHistory sh
  | Selected tab => setActiveTab tab sh
  end.

Fixpoint shell_run (evs : list ShellEvent) (sh : Shell) : M Shell :=
  match evs with
  | [] => mret sh
  | ev :: rest => sh' ← shell_step ev sh; shell_run rest sh'
  end.

End Events.

(** ** The legacy single-page application ([index.js]) *)

Module LegacyApp.

Import Http.


Definition SERVICES : list (string * string) :=
  [ ("Alerts", "alerts"); ("Compliance", "compliance"); ("Simulator", "simulator") ].

(** [ok.join(', ')] *)
Fixpoint join (sep : string) (l : list string) : string :=
  match l with
  | [] => ""
  | [x] => x
  | x :: rest => x +:+ sep +:+ join sep rest
  end.

Record Status := {
  status_text : string;
  status_color : string;
}.

(** [refreshBackendStatus], given which health checks were fulfilled
    (by service path). *)
Definition refreshBackendStatus (fulfilled : string → bool) : Status :=
  let ok := fst <$> List.filter (λ s, fulfilled (snd s)) SERVICES in
  let failed := length (List.filter (λ s, negb (fulfilled (snd s))) SERVICES) in
  if (failed =? 0)%nat then
    {| status_text := "All services up (" +:+ join ", " ok +:+ ").";
       status_color := "green" |}
  else
    {| status_text :=
         pretty (length ok) +:+ " up ("
         +:+ (if bool_decide (join ", " ok = "") then "none" else join ", " ok)
         +:+ "), " +:+ pretty failed
         +:+ " unreachable. Run backends or use Docker.";
       status_color := "orange" |}.

Section Forms.
Context `{Engine}.


(** The message of the [TypeError] the engine raises when [status] is
    read from [null]. *)
Variable null_status_message : string.


End Forms.

End LegacyApp.

(** ** A fixture engine

    [JSON.parse] restricted to the documents listed below, each mapped to
    the value the real parser yields for it; every other text is
    rejected.  The examples run the handlers on this engine. *)

Module Fixture.

(** JSON text written with apostrophes in place of double quotes. *)
Fixpoint json_text (s : string) : string :=
  match s with
  | EmptyString => EmptyString
  | String c r =>
      String (if bool_decide (c = "'"%char) then Ascii.ascii_of_nat 34 else c)
             (json_text r)
  end.

Definition error_body : json :=
  obj [ ("error", obj [ ("code", JStr "VALIDATION_ERROR");
                        ("message", JStr "bad field") ]) ].

Definition documents : list (string * json) :=
  [ ("{}", JObj ∅);
    (json_text "{'timestamp':'2024-01-01T00:00:00Z'}",
     obj [ ("timestamp", JStr "2024-01-01T00:00:00Z") ]);
    (json_text "{'CO2_ppm':420}", obj [ ("CO2_ppm", JNum 420) ]);
    (json_text "{'error':{'code':'VALIDATION_ERROR','message':'bad field'}}",
     error_body);
    ("null", JNull);
    ("42", JNum 42);
    ("[]", JArr []) ].

Fixpoint lookup_document (docs : list (string * json)) (s : string) : option json :=
  match docs with
  | [] => None
  | (k, v) :: rest => if bool_decide (s = k) then Some v else lookup_document rest s
  end.

Definition parse (s : string) : string + json :=
  match lookup_document documents s with
  | Some v => inr v
  | None => inl "Unexpected token"
  end.

Lemma parse_blank s : trim s = "" → ∃ e, parse s = inl e.
Proof.
  intros Hs. unfold parse, documents, lookup_document.
  repeat (case_bool_decide as Hk;
          [ exfalso; rewrite Hk in Hs; vm_compute in Hs; discriminate
          | clear Hk ]).
  eauto.
Qed.

(** Integer-valued numbers print in decimal; the documents of the
    fixture hold no others. *)
Definition int_toString (q : Q) : string := pretty (Qnum q / Zpos (Qden q))%Z.

Definition type_error (v : json) : string :=
  match v with
  | JNull => "Cannot read properties of null (reading 'timestamp')"
  | _ => "Cannot create property 'timestamp' on a primitive value"
  end.

#[export] Instance engine : Engine := {|
  JSON_parse := parse;
  JSON_parse_blank := parse_blank;
  Number_toString := int_toString;
  TypeError_message := type_error;
|}.

(** A world whose clock advances by one millisecond at every reading,
    starting at 2024-01-01T00:00:00Z. *)
Definition ticking : World :=
  mkWorld (λ i, 1704067200000 + N.of_nat i)%N 0 (λ i, "r" +:+ pretty i) 0 [].

(** A world whose clock stands still. *)
Definition frozen : World :=
  mkWorld (λ _, 1704067200000%N) 0 (λ i, "r" +:+ pretty i) 0 [].

End Fixture.

(** ** A second fixture engine, with more documents *)

Module Samples.

Import Fixture.

Definition compliant_body : json :=
  obj [ ("status", JStr "compliant"); ("validated_by", JStr "admin") ].

Definition documents : list (string * json) :=
  Fixture.documents
  ++ [ (json_text "{'timestamp':null}", obj [ ("timestamp", JNull) ]);
       (json_text "{'timestamp':0,'energy':{}}",
        obj [ ("timestamp", JNum 0); ("energy", JObj ∅) ]);
       (json_text "{'error':'bad key'}", obj [ ("error", JStr "bad key") ]);
       (json_text "{'message':'try later'}", obj [ ("message", JStr "try later") ]);
       (json_text "{'status':'compliant','validated_by':'admin'}", compliant_body);
       ("[1]", JArr [JNum 1]);
       ("true", JBool true) ].

Definition parse (s : string) : string + json :=
  match lookup_document documents s with
  | Some v => inr v
  | None => inl "Unexpected token"
  end.

Lemma parse_blank_samples s : trim s = "" → ∃ e, parse s = inl e.
Proof.
  intros Hs. unfold parse, documents, Fixture.documents, lookup_document, app.
  repeat (case_bool_decide as Hk;
          [ exfalso; rewrite Hk in Hs; vm_compute in Hs; discriminate
          | clear Hk ]).
  eauto.
Qed.

#[export] Instance engine : Engine := {|
  JSON_parse := parse;
  JSON_parse_blank := parse_blank_samples;
  Number_toString := int_toString;
  TypeError_message := type_error;
|}.

End Samples.

(** * Properties *)

Local Open Scope list_scope.

(** ** The platform model on samples *)

Example toISOString_epoch : toISOString 0 = "1970-01-01T00:00:00.000Z".
Proof. vm_compute. reflexivity. Qed.

Example toISOString_2024 :
  toISOString 1704067200000 = "2024-01-01T00:00:00.000Z".
Proof. vm_compute. reflexivity. Qed.

Example toISOString_leap :
  toISOString 951868799999 = "2000-02-29T23:59:59.999Z".
Proof. vm_compute. reflexivity. Qed.

Example trim_example : trim (bytes [32; 10; 194; 160] +:+ "{ }" +:+ bytes [9; 13]) = "{ }".
Proof. vm_compute. reflexivity. Qed.

Example uniqueId_ticking :
  (IngestionMocks.uniqueId Fixture.ticking).1 = "mock-1704067200000-r0".
Proof. vm_compute. reflexivity. Qed.

(** ** Rendering of time values *)

Section Decimal.

(** No character of the rendering is a dash. *)
Fixpoint dash_free (s : string) : Prop :=
  match s with
  | EmptyString => True
  | String c r => c ≠ "-"%char ∧ dash_free r
  end.

Lemma pretty_N_char_no_dash x : pretty_N_char x ≠ "-"%char.
Proof. unfold pretty_N_char. by repeat case_match. Qed.

Lemma pretty_N_go_dash_free x s : dash_free s → dash_free (pretty_N_go x s).
Proof.
  revert s. induction (N.lt_wf_0 x) as [x _ IH]; intros s Hs.
  destruct (decide (x = 0)%N) as [->|Hx].
  - by rewrite pretty_N_go_0.
  - rewrite pretty_N_go_step by lia. apply IH.
    + apply N.div_lt; lia.
    + split; [apply pretty_N_char_no_dash | done].
Qed.

Lemma pretty_N_dash_free (x : N) : dash_free (pretty x).
Proof.
  unfold pretty, pretty_N. case_decide.
  - by split.
  - by apply pretty_N_go_dash_free.
Qed.

(** A dash-free prefix followed by a dash splits a string in one way
    only. *)
Lemma dash_split a a' r r' :
  dash_free a → dash_free a' →
  a +:+ "-" +:+ r = a' +:+ "-" +:+ r' → a = a' ∧ r = r'.
Proof.
  revert a'. induction a as [|c a IH]; intros [|c' a'] Ha Ha' Heq; simpl in *.
  - by simplify_eq.
  - simplify_eq. by destruct Ha'.
  - simplify_eq. by destruct Ha.
  - injection Heq as -> Heq. destruct Ha as [_ Ha], Ha' as [_ Ha'].
    destruct (IH a' Ha Ha' Heq) as [-> ->]. done.
Qed.

Lemma time_tag_inj (prefix : string) (t t' : N) (r r' : string) :
  prefix +:+ pretty t +:+ "-" +:+ r = prefix +:+ pretty t' +:+ "-" +:+ r' →
  t = t' ∧ r = r'.
Proof.
  intros Heq. apply (inj (String.app prefix)) in Heq.
  apply dash_split in Heq as [Ht ->]; auto using pretty_N_dash_free.
  split; [by apply (inj pretty) | done].
Qed.

Lemma time_id_inj (prefix : string) (t t' : N) :
  prefix +:+ pretty t = prefix +:+ pretty t' → t = t'.
Proof. intros Heq. apply (inj (String.app prefix)) in Heq. by apply (inj pretty). Qed.

End Decimal.

(** ** The mock catalog *)

Section Catalog.
Import IngestionMocks.

(** The shape shared by the generators of the sustainability catalog:
    one reading of the clock for the timestamp, then one reading and
    one random draw for the event identifier. *)
Definition stamped (f : string → string → json) : M json :=
  ts ← now; eid ← uniqueId; mret (f ts eid).

Lemma stamped_run f w :
  stamped f w =
    (f (toISOString (Z.of_N (Date_now w (clock_reads w))))
       ("mock-" +:+ pretty (Date_now w (S (clock_reads w))) +:+ "-"
                +:+ Math_random36 w (random_draws w)),
     mkWorld (Date_now w) (S (S (clock_reads w))) (Math_random36 w)
             (S (random_draws w)) (effects w)).
Proof. by destruct w. Qed.

Lemma sustainability_shape m :
  m ∈ SUSTAINABILITY_MOCKS →
  ∃ f, getMockPayload m = stamped f
       ∧ ∀ ts eid, get "timestamp" (f ts eid) = Some (JStr ts)
                   ∧ get "external_event_id" (f ts eid) = Some (JStr eid).
Proof.
  unfold SUSTAINABILITY_MOCKS. intros Hm.
  repeat (apply elem_of_cons in Hm as [->|Hm]);
    [ eexists; split; [reflexivity | intros; split; vm_compute; reflexivity] .. | ].
  by apply elem_of_nil in Hm.
Qed.

Lemma legacy_shape m :
  m ∈ LEGACY_MOCKS →
  ∃ p, getMockPayload m = mret p
       ∧ get "timestamp" p = None ∧ get "external_event_id" p = None.
Proof.
  unfold LEGACY_MOCKS. intros Hm.
  repeat (apply elem_of_cons in Hm as [->|Hm]);
    [ eexists; split; [reflexivity | split; vm_compute; reflexivity] .. | ].
  by apply elem_of_nil in Hm.
Qed.

End Catalog.

Section CatalogFreshness.
Import IngestionMocks.

(** The claim as the specification words it: two realizations of one
    descriptor never carry the same event identifier. *)
Definition always_fresh (m : MockDescriptor) : Prop :=
  ∀ w, get "external_event_id" (getMockPayload m w).1
       ≠ get "external_event_id" (getMockPayload m (getMockPayload m w).2).1.

(** C1, counterexample.  The first descriptor of the legacy catalog,
    realized twice in a row while the clock advances, yields the same
    payload both times: it carries neither a timestamp nor an event
    identifier, so the two realizations cannot be told apart. *)
Lemma legacy_normal_realized_twice :
  legacy_normal ∈ LEGACY_MOCKS
  ∧ (getMockPayload legacy_normal Fixture.ticking).1
    = (getMockPayload legacy_normal
         (getMockPayload legacy_normal Fixture.ticking).2).1
  ∧ get "external_event_id" (getMockPayload legacy_normal Fixture.ticking).1 = None
  ∧ get "timestamp" (getMockPayload legacy_normal Fixture.ticking).1 = None
  ∧ ¬ always_fresh legacy_normal.
Proof.
  split; [unfold LEGACY_MOCKS; apply elem_of_cons; by left|].
  split; [reflexivity|].
  split; [vm_compute; reflexivity|].
  split; [vm_compute; reflexivity|].
  intros Hfresh. by apply (Hfresh Fixture.ticking).
Qed.

(** C1, amended.  Realizing a descriptor of the sustainability catalog
    twice in a row stamps each payload with the clock reading taken at
    its realization and with an event identifier built from a further
    clock reading and a random suffix; the two identifiers differ exactly
    when those readings or those suffixes differ.  A descriptor of the
    legacy catalog realizes to the same payload every time, without
    timestamp or event identifier. *)
Theorem realized_twice (m : MockDescriptor) (w : World) :
  let first := getMockPayload m w in
  let second := getMockPayload m first.2 in
  let c := clock_reads w in
  let d := random_draws w in
  (m ∈ SUSTAINABILITY_MOCKS →
     get "timestamp" first.1
       = Some (JStr (toISOString (Z.of_N (Date_now w c))))
     ∧ get "timestamp" second.1
       = Some (JStr (toISOString (Z.of_N (Date_now w (c + 2)))))
     ∧ get "external_event_id" first.1
       = Some (JStr ("mock-" +:+ pretty (Date_now w (c + 1)) +:+ "-"
                             +:+ Math_random36 w d))
     ∧ get "external_event_id" second.1
       = Some (JStr ("mock-" +:+ pretty (Date_now w (c + 3)) +:+ "-"
                             +:+ Math_random36 w (d + 1)))
     ∧ (get "external_event_id" first.1 ≠ get "external_event_id" second.1
        ↔ Date_now w (c + 1) ≠ Date_now w (c + 3)
          ∨ Math_random36 w d ≠ Math_random36 w (d + 1)))
  ∧ (m ∈ LEGACY_MOCKS →
     first.1 = second.1
     ∧ get "timestamp" first.1 = None
     ∧ get "external_event_id" first.1 = None).
Proof.
  intros first second c d. split; intros Hm.
  - destruct (sustainability_shape m Hm) as (f & Hf & Hfields).
    subst first second. rewrite Hf, !stamped_run. simpl.
    replace (c + 1) with (S c) by lia. replace (c + 2) with (S (S c)) by lia.
    replace (c + 3) with (S (S (S c))) by lia. replace (d + 1) with (S d) by lia.
    subst c d.
    repeat match goal with
           | |- context [get ?k (f ?a ?b)] =>
               rewrite (proj1 (Hfields a b)) || rewrite (proj2 (Hfields a b))
           end.
    repeat split; try done.
    + intros Hne.
      destruct (decide (Date_now w (S (clock_reads w))
                        = Date_now w (S (S (S (clock_reads w)))))) as [Ht|]; [|by left].
      right. intros Hr. apply Hne. by rewrite Ht, Hr.
    + intros Hdiff Heq.
      assert (Hstr : ∀ a b, Some (JStr a) = Some (JStr b) → a = b) by congruence.
      apply Hstr, time_tag_inj in Heq as [Ht Hr].
      destruct Hdiff as [Hd|Hd]; by apply Hd.
  - destruct (legacy_shape m Hm) as (p & Hp & Hts & Hid).
    subst first second. rewrite Hp. done.
Qed.

Lemma realized_twice_witness :
  ai_training_full ∈ SUSTAINABILITY_MOCKS
  ∧ get "external_event_id" (getMockPayload ai_training_full Fixture.ticking).1
    ≠ get "external_event_id"
        (getMockPayload ai_training_full
           (getMockPayload ai_training_full Fixture.ticking).2).1.
Proof.
  assert (Hin : ai_training_full ∈ SUSTAINABILITY_MOCKS)
    by (unfold SUSTAINABILITY_MOCKS; apply elem_of_cons; by left).
  split; [exact Hin|].
  apply (proj1 (realized_twice ai_training_full Fixture.ticking) Hin).
  left. vm_compute. discriminate.
Defined.

End CatalogFreshness.

(** ** Dashboard aggregation *)

Section DashboardProperties.
Import Dashboard.
Local Open Scope Q_scope.

Lemma Qltb_lt x y : Qltb x y = true ↔ x < y.
Proof.
  unfold Qltb. rewrite negb_true_iff. split.
  - intros Hle. apply Qnot_le_lt. intros Hyx.
    apply Qle_bool_iff in Hyx. congruence.
  - intros Hlt. destruct (Qle_bool y x) eqn:Hle; [|done].
    apply Qle_bool_iff in Hle. by apply Qlt_not_le in Hlt.
Qed.

Lemma gt_spec v c : gt v c = true ↔ ∃ q, v = Some q ∧ c < q.
Proof.
  destruct v as [q|]; simpl.
  - rewrite Qltb_lt. split.
    + intros Hlt. by exists q.
    + by intros (q' & [= <-] & Hlt).
  - split; [done | by intros (q & [=] & _)].
Qed.

Lemma lt_spec v c : lt v c = true ↔ ∃ q, v = Some q ∧ q < c.
Proof.
  destruct v as [q|]; simpl.
  - rewrite Qltb_lt. split.
    + intros Hlt. by exists q.
    + by intros (q' & [= <-] & Hlt).
  - split; [done | by intros (q & [=] & _)].
Qed.

Lemma two_point_zero q : 2.0 < q ↔ 2 < q.
Proof. unfold Qlt. simpl. lia. Qed.

Lemma is_type_spec t m : is_type t m = true ↔ metric_type m = t.
Proof. unfold is_type. apply bool_decide_eq_true. Qed.

(** C2.  The critical-condition predicate holds of a metric exactly
    when it is a [pue] or a [wue] metric whose value exceeds 2.0, or a
    [utilization_pct] metric whose value is below 30; the three copies
    of the predicate agree; both comparisons are strict, so a value of
    exactly 2.0, respectively 30.0, is not critical. *)
Theorem isCritical_thresholds (m : Metric) :
  (isCritical m = true ↔
     (metric_type m = "pue" ∧ ∃ v, value m = Some v ∧ 2 < v)
     ∨ (metric_type m = "wue" ∧ ∃ v, value m = Some v ∧ 2 < v)
     ∨ (metric_type m = "utilization_pct" ∧ ∃ v, value m = Some v ∧ v < 30))
  ∧ MetricDetailModal_isCritical m = isCritical m
  ∧ MetricSection_isCritical m = isCritical m
  ∧ (∀ v, metric_type m = "pue" ∨ metric_type m = "wue" →
          value m = Some v → v == 2 → isCritical m = false)
  ∧ (∀ v, metric_type m = "utilization_pct" →
          value m = Some v → v == 30 → isCritical m = false).
Proof.
  assert (Hiff : isCritical m = true ↔
     (metric_type m = "pue" ∧ ∃ v, value m = Some v ∧ 2 < v)
     ∨ (metric_type m = "wue" ∧ ∃ v, value m = Some v ∧ 2 < v)
     ∨ (metric_type m = "utilization_pct" ∧ ∃ v, value m = Some v ∧ v < 30)).
  { unfold isCritical.
    rewrite !orb_true_iff, !andb_true_iff, !is_type_spec, !gt_spec, lt_spec.
    setoid_rewrite two_point_zero. tauto. }
  split; [exact Hiff|]. split; [done|]. split; [done|]. split.
  - intros v Htype Hv Heq.
    apply not_true_is_false. intros Hc.
    apply Hiff in Hc as [(_ & q & Hq & Hlt)|[(_ & q & Hq & Hlt)|(Hu & _)]].
    + simplify_eq. rewrite Heq in Hlt. by apply Qlt_irrefl in Hlt.
    + simplify_eq. rewrite Heq in Hlt. by apply Qlt_irrefl in Hlt.
    + destruct Htype as [Ht|Ht]; rewrite Ht in Hu; discriminate.
  - intros v Htype Hv Heq.
    apply not_true_is_false. intros Hc.
    apply Hiff in Hc as [(Hu & _)|[(Hu & _)|(_ & q & Hq & Hlt)]].
    + rewrite Htype in Hu; discriminate.
    + rewrite Htype in Hu; discriminate.
    + simplify_eq. rewrite Heq in Hlt. by apply Qlt_irrefl in Hlt.
Qed.

Definition metric (t : string) (v : option Q) : Metric :=
  {| metric_type := t; value := v; unit := ""; asset_id := None;
     region := None; timestamp_utc := None |}.

Lemma isCritical_thresholds_witness :
  isCritical (metric "pue" (Some 2.0)) = false
  ∧ isCritical (metric "utilization_pct" (Some 30.0)) = false
  ∧ isCritical (metric "pue" (Some 2.5)) = true.
Proof.
  split; [|split].
  - apply (proj1 (proj2 (proj2 (proj2 (isCritical_thresholds (metric "pue" (Some 2.0))))))
             2.0); [by left | reflexivity | reflexivity].
  - apply (proj2 (proj2 (proj2 (proj2 (isCritical_thresholds
             (metric "utilization_pct" (Some 30.0))))))
             30.0); reflexivity.
  - apply (proj1 (isCritical_thresholds (metric "pue" (Some 2.5)))).
    left. split; [reflexivity|]. exists 2.5. split; reflexivity.
Defined.

Example pue_samples :
  isCritical (metric "pue" (Some 2.5)) = true
  ∧ isCritical (metric "pue" (Some 1.9)) = false
  ∧ isCritical (metric "wue" (Some 2.0)) = false
  ∧ isCritical (metric "utilization_pct" (Some 29.9)) = true
  ∧ isCritical (metric "utilization_pct" (Some 30.0)) = false
  ∧ isCritical (metric "carbon_intensity" (Some 99)) = false
  ∧ isCritical (metric "pue" None) = false.
Proof. repeat split. Qed.

Lemma or_null_zero v :
  v = None ∨ (∃ q, v = Some q ∧ q == 0) → or_null v = None.
Proof.
  intros [->|(q & -> & Hq)]; [done|]. simpl.
  apply Qeq_bool_iff in Hq. by rewrite Hq.
Qed.

(** [m] is the first metric of type [t] in the list: the metrics listed
    before it have other types. *)
Definition first_of_type (t : string) (metrics : list Metric) (m : Metric) : Prop :=
  ∃ before after,
    metrics = before ++ m :: after
    ∧ metric_type m = t
    ∧ Forall (λ m', metric_type m' ≠ t) before.

Lemma find_type_first t metrics m :
  first_of_type t metrics m → find_type t (Some metrics) = Some m.
Proof.
  intros (before & after & -> & Ht & Hbefore). simpl.
  induction Hbefore as [|m' before Hm' _ IH]; simpl.
  - by rewrite (proj2 (is_type_spec t m) Ht).
  - destruct (is_type t m') eqn:Hty; [|done].
    by apply is_type_spec in Hty.
Qed.

(** C10.  When the first metric of the efficiency category whose type is
    [pue] has value 0 or no value, the summary PUE is absent and its
    critical flag is off, whatever the metrics listed after it; likewise
    for the first metric of the hardware category whose type is
    [utilization_pct] and the summary utilization.  Both dashboards derive
    the statistics alike. *)
Theorem zero_collapses_to_absent
    (data : Report) (metrics : list Metric) (m : Metric) :
  value m = None ∨ (∃ q, value m = Some q ∧ q == 0) →
  (efficiency data = Some metrics → first_of_type "pue" metrics m →
     avgPUE (summaryStats data) = None
     ∧ avgPUE_critical (summaryStats data) = false
     ∧ avgPUE (TelemetryDashboard_summaryStats data) = None
     ∧ avgPUE_critical (TelemetryDashboard_summaryStats data) = false)
  ∧ (hardware data = Some metrics → first_of_type "utilization_pct" metrics m →
     avgUtilization (summaryStats data) = None
     ∧ avgUtilization_critical (summaryStats data) = false
     ∧ avgUtilization (TelemetryDashboard_summaryStats data) = None
     ∧ avgUtilization_critical (TelemetryDashboard_summaryStats data) = false).
Proof.
  intros Hzero. split; intros Hcat Hfirst; apply find_type_first in Hfirst.
  - unfold avgPUE_critical. simpl. rewrite Hcat, Hfirst. simpl.
    by rewrite (or_null_zero _ Hzero).
  - unfold avgUtilization_critical. simpl. rewrite Hcat, Hfirst. simpl.
    by rewrite (or_null_zero _ Hzero).
Qed.

Definition idle_report : Report :=
  {| carbon := None; water := None;
     efficiency := Some [metric "dcie" (Some 0.5); metric "pue" (Some 0)];
     hardware := Some [metric "utilization_pct" (Some 0)];
     data_quality := None; sustainability_score := None |}.

(** A report whose first [pue] and first [utilization_pct] metrics are
    zero, each behind a metric of another type and before a critical
    metric of its own type. *)
Definition masked_report : Report :=
  {| carbon := None; water := None;
     efficiency := Some [metric "dcie" (Some 0.5); metric "pue" (Some 0);
                         metric "pue" (Some 2.5)];
     hardware := Some [metric "idle_rate_pct" (Some 80);
                       metric "utilization_pct" (Some 0);
                       metric "utilization_pct" (Some 12)];
     data_quality := None; sustainability_score := None |}.

Lemma zero_collapses_to_absent_witness :
  (avgPUE (summaryStats masked_report) = None
   ∧ avgPUE_critical (summaryStats masked_report) = false
   ∧ isCritical (metric "pue" (Some 2.5)) = true)
  ∧ (avgUtilization (summaryStats masked_report) = None
     ∧ avgUtilization_critical (summaryStats masked_report) = false
     ∧ isCritical (metric "utilization_pct" (Some 0)) = true).
Proof.
  split.
  - destruct (zero_collapses_to_absent masked_report
                [metric "dcie" (Some 0.5); metric "pue" (Some 0);
                 metric "pue" (Some 2.5)]
                (metric "pue" (Some 0))) as [Hpue _].
    + right. exists 0. split; reflexivity.
    + destruct Hpue as (Ha & Hc & _); [reflexivity| |by repeat split].
      exists [metric "dcie" (Some 0.5)], [metric "pue" (Some 2.5)].
      split; [reflexivity|]. split; [reflexivity|].
      repeat constructor. discriminate.
  - destruct (zero_collapses_to_absent masked_report
                [metric "idle_rate_pct" (Some 80); metric "utilization_pct" (Some 0);
                 metric "utilization_pct" (Some 12)]
                (metric "utilization_pct" (Some 0))) as [_ Hu].
    + right. exists 0. split; reflexivity.
    + destruct Hu as (Ha & Hc & _); [reflexivity| |by repeat split].
      exists [metric "idle_rate_pct" (Some 80)], [metric "utilization_pct" (Some 12)].
      split; [reflexivity|]. split; [reflexivity|].
      repeat constructor. discriminate.
Defined.

End DashboardProperties.

(** ** The history log *)

Section History.
Import Portal.

Definition summary (e : HistoryEntry) : IngestionType * json :=
  (entry_type e, data e).

(** Truncating the older entries before a push does not change what a
    later truncation keeps. *)
Lemma take_app_cons_take {A} (n m : nat) (front : list A) (x : A) (old : list A) :
  (n ≤ S m)%nat →
  take n (front ++ x :: take m old) = take n (front ++ x :: old).
Proof.
  revert n. induction front as [|y front IH]; intros [|n] Hn; simpl; try done.
  - by rewrite take_take, Nat.min_l by lia.
  - f_equal. apply IH. lia.
Qed.

Lemma take_push_take {A} (k : nat) (front : list A) (x : A) (old : list A) :
  take (S k) (front ++ x :: take k old) = take (S k) (front ++ x :: old).
Proof. by apply take_app_cons_take. Qed.

Lemma handleIngestSuccess_run mode d sh w :
  handleIngestSuccess mode d sh w =
    ({| activeTab := "dashboard";
        ingestionHistory :=
          {| entry_id := Date_now w (clock_reads w);
             timestamp := toISOString (Z.of_N (Date_now w (S (clock_reads w))));
             status := "success"; entry_type := mode; data := d |}
          :: take 19 (ingestionHistory sh) |},
     mkWorld (Date_now w) (S (S (clock_reads w))) (Math_random36 w)
             (random_draws w) (effects w)).
Proof. by destruct w. Qed.

Lemma onSuccess_run mode d history w :
  IngestionPortal.onSuccess mode d history w =
    ({| entry_id := Date_now w (clock_reads w);
        timestamp := toISOString (Z.of_N (Date_now w (S (clock_reads w))));
        status := "success"; entry_type := mode; data := d |}
     :: take 9 history,
     mkWorld (Date_now w) (S (S (clock_reads w))) (Math_random36 w)
             (random_draws w) (effects w)).
Proof. by destruct w. Qed.

Lemma ingest_all_history subs sh w :
  subs ≠ [] →
  summary <$> ingestionHistory (ingest_all subs sh w).1
  = take 20 (reverse subs ++ (summary <$> ingestionHistory sh)).
Proof.
  revert sh w. induction subs as [|[mode d] rest IH]; intros sh w Hne; [done|].
  simpl. unfold mbind, M_bind. rewrite handleIngestSuccess_run.
  destruct rest as [|s rest].
  - simpl. by rewrite fmap_take.
  - rewrite IH by done. simpl ingestionHistory.
    rewrite fmap_cons, fmap_take. unfold summary at 1. simpl.
    rewrite (reverse_cons (s :: rest)), <- app_assoc. simpl app.
    apply (take_push_take 19).
Qed.

Lemma page_ingest_all_history subs history w :
  subs ≠ [] →
  summary <$> (IngestionPortal.ingest_all subs history w).1
  = take 10 (reverse subs ++ (summary <$> history)).
Proof.
  revert history w. induction subs as [|[mode d] rest IH]; intros h w Hne; [done|].
  simpl. unfold mbind, M_bind. rewrite onSuccess_run.
  destruct rest as [|s rest].
  - simpl. by rewrite fmap_take.
  - rewrite IH by done.
    rewrite fmap_cons, fmap_take. unfold summary at 1. simpl.
    rewrite (reverse_cons (s :: rest)), <- app_assoc. simpl app.
    apply (take_push_take 9).
Qed.

(** C4.  After any run of successful submissions, starting from the
    empty history of a freshly mounted shell, the history log of the
    combined portal holds the 20 most recent submissions, the most recent
    first; the stand-alone ingestion page keeps the 10 most recent in the
    same order.  Neither log ever holds more than 20 entries. *)
Theorem history_bounded_most_recent_first
    (subs : list (IngestionType * json)) (tab : string) (w : World) :
  summary <$> ingestionHistory (ingest_all subs (initial tab) w).1
    = take 20 (reverse subs)
  ∧ (length (ingestionHistory (ingest_all subs (initial tab) w).1) ≤ 20)%nat
  ∧ summary <$> (IngestionPortal.ingest_all subs [] w).1
    = take 10 (reverse subs)
  ∧ (length (IngestionPortal.ingest_all subs [] w).1 ≤ 20)%nat.
Proof.
  assert (Hportal : summary <$> ingestionHistory (ingest_all subs (initial tab) w).1
                    = take 20 (reverse subs)).
  { destruct subs as [|s subs]; [done|].
    rewrite ingest_all_history by done. simpl. by rewrite app_nil_r. }
  assert (Hpage : summary <$> (IngestionPortal.ingest_all subs [] w).1
                  = take 10 (reverse subs)).
  { destruct subs as [|s subs]; [done|].
    rewrite page_ingest_all_history by done. simpl. by rewrite app_nil_r. }
  split; [done|]. split.
  - rewrite <- (length_fmap summary), Hportal, length_take. lia.
  - split; [done|].
    rewrite <- (length_fmap summary), Hpage, length_take. lia.
Qed.

Example history_of_23 :
  let subs := (λ i, (sustainability, JNum (inject_Z (Z.of_nat i)))) <$> seq 1 23 in
  (λ e, data e) <$> ingestionHistory (ingest_all subs (initial "ingest") Fixture.ticking).1
  = (λ i, JNum (inject_Z (Z.of_nat i))) <$> reverse (seq 4 20).
Proof. vm_compute. reflexivity. Qed.

End History.

(** ** The custom mock store *)

Section CustomMocks.
Import Portal.
Context `{Engine}.

(** No persistence effect is pending: the array held in state is the
    one last written to storage. *)
Definition committed (st : IngestionTab) : Prop :=
  customMocks_ref st = persisted_ref st.

Definition new_mock (st : IngestionTab) (w : World) : Mock :=
  {| id := "custom-" +:+ pretty (Date_now w (clock_reads w));
     name := trim (customMockName st);
     payload := trim (jsonInput st);
     type := ingestionType st;
     savedAt := toISOString (Z.of_N (Date_now w (S (clock_reads w)))) |}.

Definition tick2 (w : World) : World :=
  mkWorld (Date_now w) (S (S (clock_reads w))) (Math_random36 w)
          (random_draws w) (effects w).

Definition with_effects (w : World) (es : list Effect) : World :=
  mkWorld (Date_now w) (clock_reads w) (Math_random36 w)
          (random_draws w) (effects w ++ es).

Lemma blank_spec s : blank s = true ↔ trim s = "".
Proof. unfold blank. apply bool_decide_eq_true. Qed.

Lemma blank_false s : blank s = false ↔ trim s ≠ "".
Proof. unfold blank. apply bool_decide_eq_false. Qed.

Lemma parsed_not_blank s v : JSON_parse s = inr v → blank s = false.
Proof.
  intros Hp. apply blank_false. intros Hb.
  destruct (JSON_parse_blank s Hb) as [e He]. congruence.
Qed.

Lemma save_blank st w :
  trim (jsonInput st) = "" ∨ trim (customMockName st) = "" →
  handleSaveCustomMock st w = (st, w).
Proof.
  intros Hb. unfold handleSaveCustomMock.
  assert (blank (jsonInput st) || blank (customMockName st) = true) as ->; [|done].
  apply orb_true_iff. by rewrite !blank_spec.
Qed.

Lemma save_unparsed st w e :
  trim (jsonInput st) ≠ "" → trim (customMockName st) ≠ "" →
  JSON_parse (jsonInput st) = inl e →
  handleSaveCustomMock st w
  = (st, with_effects w [Alert "Invalid JSON. Fix payload before saving."]).
Proof.
  intros Hb Hn Hp. unfold handleSaveCustomMock.
  apply blank_false in Hb, Hn. rewrite Hb, Hn, Hp. by destruct w.
Qed.

Lemma save_parsed st w v :
  trim (customMockName st) ≠ "" →
  JSON_parse (jsonInput st) = inr v →
  handleSaveCustomMock st w
  = (setCustomMockName "" (setCustomMocks (λ prev, new_mock st w :: prev) st),
     tick2 w).
Proof.
  intros Hn Hp. unfold handleSaveCustomMock.
  rewrite (parsed_not_blank _ _ Hp). apply blank_false in Hn.
  rewrite Hn, Hp. by destruct w.
Qed.

Lemma persist_committed st w :
  committed st → persist_customMocks st w = (st, w).
Proof.
  unfold committed, persist_customMocks. intros ->.
  by rewrite bool_decide_eq_true_2.
Qed.

Lemma dispatch_committed handler st w :
  committed (dispatch handler st w).1.
Proof.
  unfold dispatch, mbind, M_bind. destruct (handler st w) as [st' w'].
  unfold persist_customMocks, committed. case_bool_decide; [done|].
  by destruct w'.
Qed.

(** C5.  With no persistence pending, saving with a blank name or a
    blank buffer changes nothing at all; saving a buffer that does not
    parse leaves the state as it is and only raises the notice: in
    neither case is storage written.  A save with a name and a parsable
    buffer puts the new record in front of the list and writes the new
    list to storage. *)
Theorem handleSaveCustomMock_guarded (st : IngestionTab) (w : World) :
  committed st →
  (trim (customMockName st) = "" ∨ trim (jsonInput st) = "" →
     dispatch handleSaveCustomMock st w = (st, w))
  ∧ (∀ e, JSON_parse (jsonInput st) = inl e →
     (dispatch handleSaveCustomMock st w).1 = st
     ∧ ∃ notices,
         effects (dispatch handleSaveCustomMock st w).2 = effects w ++ notices
         ∧ ∀ key v, SetItem key v ∉ notices)
  ∧ (∀ v, trim (customMockName st) ≠ "" → JSON_parse (jsonInput st) = inr v →
     customMocks (dispatch handleSaveCustomMock st w).1
       = new_mock st w :: customMocks st
     ∧ effects (dispatch handleSaveCustomMock st w).2
       = effects w
         ++ [SetItem CUSTOM_MOCKS_STORAGE_KEY
               (JArr (Mock_to_json <$> new_mock st w :: customMocks st))]).
Proof.
  intros Hc. split; [|split].
  - intros Hb. unfold dispatch, mbind, M_bind.
    rewrite save_blank by tauto. by apply persist_committed.
  - intros e Hp. unfold dispatch, mbind, M_bind.
    destruct (decide (trim (jsonInput st) = "")) as [Hb|Hb];
      [|destruct (decide (trim (customMockName st) = "")) as [Hn|Hn]].
    + rewrite save_blank by tauto. rewrite persist_committed by done.
      split; [done|]. exists []. split; [by rewrite app_nil_r|].
      intros ?? Hin. by apply elem_of_nil in Hin.
    + rewrite save_blank by tauto. rewrite persist_committed by done.
      split; [done|]. exists []. split; [by rewrite app_nil_r|].
      intros ?? Hin. by apply elem_of_nil in Hin.
    + rewrite (save_unparsed _ _ e) by done. rewrite persist_committed by done.
      split; [done|]. eexists. split; [reflexivity|].
      intros ?? Hin. apply list_elem_of_singleton in Hin. discriminate.
  - intros v Hn Hp. unfold dispatch, mbind, M_bind.
    rewrite (save_parsed _ _ v) by done.
    unfold persist_customMocks. simpl.
    rewrite bool_decide_eq_false_2 by (unfold committed in Hc; lia).
    by destruct w.
Qed.

End CustomMocks.

Section CustomMocksExamples.
Import Portal Fixture.

(** A freshly mounted component into which the user has typed a name and
    the empty object. *)
Definition named (name' : string) (st : IngestionTab) : IngestionTab :=
  setJsonInput "{}" (setCustomMockName name' st).

Lemma handleSaveCustomMock_guarded_witness :
  customMocks
    (dispatch handleSaveCustomMock (named "first" (mounted [])) Fixture.ticking).1
  = [ {| id := "custom-1704067200000"; name := "first"; payload := "{}";
         type := sustainability; savedAt := "2024-01-01T00:00:00.001Z" |} ]
  ∧ dispatch handleSaveCustomMock (mounted []) Fixture.ticking
    = (mounted [], Fixture.ticking).
Proof.
  destruct (handleSaveCustomMock_guarded (named "first" (mounted [])) Fixture.ticking)
    as (_ & _ & Hsave); [reflexivity|].
  destruct (Hsave (JObj ∅)) as [Hlist _];
    [intros Hn; vm_compute in Hn; discriminate | reflexivity |].
  split.
  - rewrite Hlist. vm_compute. reflexivity.
  - apply (handleSaveCustomMock_guarded (mounted []) Fixture.ticking);
      [reflexivity | left; reflexivity].
Defined.

End CustomMocksExamples.

Section MockIdentifiers.
Import Portal.
Context `{Engine}.

Definition ids (st : IngestionTab) : list string := id <$> customMocks st.

Definition custom_id (t : N) : string := "custom-" +:+ pretty t.

(** What a save does to the list and to the clock: nothing, or one new
    record in front, named after the reading it took. *)
Lemma save_as_cases name' buffer mode st w :
  Date_now (save_as name' buffer mode st w).2 = Date_now w
  ∧ ((ids (save_as name' buffer mode st w).1 = ids st
      ∧ clock_reads (save_as name' buffer mode st w).2 = clock_reads w)
     ∨ (ids (save_as name' buffer mode st w).1
          = custom_id (Date_now w (clock_reads w)) :: ids st
        ∧ clock_reads (save_as name' buffer mode st w).2 = clock_reads w + 2)).
Proof.
  unfold save_as, dispatch, mbind, M_bind.
  set (st0 := setIngestionType mode (setJsonInput buffer (setCustomMockName name' st))).
  assert (Hids : ids st0 = ids st) by done.
  assert (Hpersist : ∀ st' w',
    Date_now (persist_customMocks st' w').2 = Date_now w'
    ∧ clock_reads (persist_customMocks st' w').2 = clock_reads w'
    ∧ ids (persist_customMocks st' w').1 = ids st').
  { intros st' w'. unfold persist_customMocks.
    case_bool_decide; [done|]. by destruct w'. }
  destruct (decide (trim (jsonInput st0) = "")) as [Hb|Hb];
    [|destruct (decide (trim (customMockName st0) = "")) as [Hn|Hn]].
  - rewrite save_blank by tauto.
    destruct (Hpersist st0 w) as (Hd & Hc & Hi). rewrite Hd, Hc, Hi. tauto.
  - rewrite save_blank by tauto.
    destruct (Hpersist st0 w) as (Hd & Hc & Hi). rewrite Hd, Hc, Hi. tauto.
  - destruct (JSON_parse (jsonInput st0)) as [e|v] eqn:Hp.
    + rewrite (save_unparsed _ _ e) by done.
      match goal with |- context [persist_customMocks ?a ?b] =>
        destruct (Hpersist a b) as (Hd & Hc & Hi) end.
      rewrite Hd, Hc, Hi. destruct w; simpl. tauto.
    + rewrite (save_parsed _ _ v) by done.
      match goal with |- context [persist_customMocks ?a ?b] =>
        destruct (Hpersist a b) as (Hd & Hc & Hi) end.
      rewrite Hd, Hc, Hi.
      split; [by destruct w|]. right. split; [|destruct w; simpl; lia].
      reflexivity.
Qed.

(** C8, amended.  Ids stay pairwise distinct through any sequence of
    saves, provided the clock readings taken for the ids of successive
    saves are pairwise distinct and name none of the mocks already in the
    list, whose ids are distinct to begin with. *)
Theorem save_all_unique_ids
    (inputs : list (string * string * IngestionType))
    (st : IngestionTab) (w : World) :
  NoDup (ids st) →
  (∀ k, custom_id (Date_now w (clock_reads w + 2 * k)) ∉ ids st) →
  (∀ i j, Date_now w (clock_reads w + 2 * i) = Date_now w (clock_reads w + 2 * j)
          → i = j) →
  NoDup (ids (save_all inputs st w).1).
Proof.
  revert st w. induction inputs as [|[[name' buffer] mode] rest IH];
    intros st w Hnodup Hfresh Hinj; [done|].
  simpl. unfold mbind, M_bind.
  destruct (save_as name' buffer mode st w) as [st' w'] eqn:Hsave.
  pose proof (save_as_cases name' buffer mode st w) as Hcases.
  rewrite Hsave in Hcases. simpl in Hcases.
  destruct Hcases as [Hnow [[Hids Hclock]|[Hids Hclock]]].
  - apply IH; rewrite ?Hids, ?Hnow, ?Hclock; done.
  - apply IH; rewrite ?Hids, ?Hnow, ?Hclock.
    + apply NoDup_cons. split; [|done].
      specialize (Hfresh 0). by rewrite Nat.mul_0_r, Nat.add_0_r in Hfresh.
    + intros k Hin. apply elem_of_cons in Hin as [Heq|Hin].
      * apply time_id_inj in Heq.
        specialize (Hinj (S k) 0).
        replace (clock_reads w + 2 * S k) with (clock_reads w + 2 + 2 * k) in Hinj by lia.
        rewrite Nat.mul_0_r, Nat.add_0_r in Hinj. by apply Hinj in Heq.
      * apply (Hfresh (S k)).
        by replace (clock_reads w + 2 * S k) with (clock_reads w + 2 + 2 * k) by lia.
    + intros i j Heq.
      specialize (Hinj (S i) (S j)).
      replace (clock_reads w + 2 * S i) with (clock_reads w + 2 + 2 * i) in Hinj by lia.
      replace (clock_reads w + 2 * S j) with (clock_reads w + 2 + 2 * j) in Hinj by lia.
      apply Hinj in Heq. lia.
Qed.

End MockIdentifiers.

Section MockIdentifiersExamples.
Import Portal Fixture.

Lemma save_all_unique_ids_witness :
  NoDup (ids (save_all [("first", "{}", sustainability);
                        ("second", "null", legacy)]
                       (mounted []) Fixture.ticking).1).
Proof.
  apply save_all_unique_ids.
  - apply NoDup_nil_2.
  - intros k Hin. by apply elem_of_nil in Hin.
  - intros i j Heq. simpl in Heq. lia.
Defined.

(** C8, counterexample.  Two saves for which the clock returns the same
    reading, as under a frozen test clock, produce two mocks with one and
    the same id. *)
Lemma frozen_clock_duplicate_ids :
  ids (save_all [("first", "{}", sustainability);
                 ("second", "{}", sustainability)]
                (mounted []) Fixture.frozen).1
  = ["custom-1704067200000"; "custom-1704067200000"]
  ∧ ¬ NoDup (ids (save_all [("first", "{}", sustainability);
                            ("second", "{}", sustainability)]
                           (mounted []) Fixture.frozen).1).
Proof.
  assert (Hids : ids (save_all [("first", "{}", sustainability);
                                ("second", "{}", sustainability)]
                               (mounted []) Fixture.frozen).1
                 = ["custom-1704067200000"; "custom-1704067200000"])
    by (vm_compute; reflexivity).
  split; [exact Hids|].
  rewrite Hids. intros Hnodup. apply NoDup_cons in Hnodup as [Hnotin _].
  apply Hnotin. by apply elem_of_cons; left.
Qed.

End MockIdentifiersExamples.

Section DeleteMock.
Import Portal.

Lemma filter_all {A} (P : A → Prop) `{!∀ x, Decision (P x)} (l : list A) :
  (∀ x, x ∈ l → P x) → filter P l = l.
Proof.
  induction l as [|x l IH]; intros Hall; [done|].
  rewrite filter_cons_True by (apply Hall, elem_of_cons; by left).
  f_equal. apply IH. intros y Hy. apply Hall, elem_of_cons. by right.
Qed.

(** C9.  Deleting by id keeps exactly the mocks with another id, in
    their order; when no mock has the id the list stays as it is; a
    second deletion of the same id changes nothing more; and the handler
    has no outcome other than the new state. *)
Theorem handleDeleteCustomMock_removes_matching
    (id' : string) (st : IngestionTab) (w : World) :
  (∀ m, m ∈ customMocks (handleDeleteCustomMock id' st w).1
        ↔ m ∈ customMocks st ∧ id m ≠ id')
  ∧ customMocks (handleDeleteCustomMock id' st w).1 `sublist_of` customMocks st
  ∧ (id' ∉ id <$> customMocks st →
     customMocks (handleDeleteCustomMock id' st w).1 = customMocks st)
  ∧ customMocks
      (handleDeleteCustomMock id' (handleDeleteCustomMock id' st w).1
                              (handleDeleteCustomMock id' st w).2).1
    = customMocks (handleDeleteCustomMock id' st w).1
  ∧ (handleDeleteCustomMock id' st w).2 = w.
Proof.
  simpl. split; [|split; [|split; [|split]]].
  - intros m. rewrite list_elem_of_filter. tauto.
  - apply sublist_filter.
  - intros Hnotin. apply filter_all. intros m Hm Heq.
    apply Hnotin. rewrite <- Heq. by apply list_elem_of_fmap_2.
  - apply filter_all. intros m Hm. by apply list_elem_of_filter in Hm as [? _].
  - done.
Qed.

Definition two_mocks : list Mock :=
  [ {| id := "custom-2"; name := "b"; payload := "{}"; type := legacy;
       savedAt := "1970-01-01T00:00:00.002Z" |};
    {| id := "custom-1"; name := "a"; payload := "{}"; type := sustainability;
       savedAt := "1970-01-01T00:00:00.001Z" |} ].

Lemma handleDeleteCustomMock_removes_matching_witness :
  customMocks (handleDeleteCustomMock "custom-9" (mounted two_mocks) Fixture.ticking).1
  = two_mocks.
Proof.
  apply (proj1 (proj2 (proj2 (handleDeleteCustomMock_removes_matching
           "custom-9" (mounted two_mocks) Fixture.ticking)))).
  intros Hin. vm_compute in Hin.
  repeat (apply elem_of_cons in Hin as [Hin|Hin]; [discriminate|]).
  by apply elem_of_nil in Hin.
Defined.

Example delete_first :
  id <$> customMocks (handleDeleteCustomMock "custom-2" (mounted two_mocks)
                                             Fixture.ticking).1
  = ["custom-1"].
Proof. vm_compute. reflexivity. Qed.

End DeleteMock.

(** ** Submission *)

Section Submit.
Import Portal.
Context `{Engine}.

(** The network call a submission in the given mode issues. *)
Definition submission (st : IngestionTab) (mode : IngestionType) (body : json) : Effect :=
  match mode with
  | sustainability =>
      Post (Api.ingest_url (includeScorecard st))
           (Api.ingest_headers (sourceId st) (ingestionSource st)) body
  | legacy => Post "/api/alerts/process-telemetry" [] body
  end.

Definition is_Post (e : Effect) : Prop :=
  match e with
  | Post _ _ _ => True
  | _ => False
  end.

Lemma mutate_run st mode body w :
  mutate st mode body w = (tt, with_effects w [submission st mode body]).
Proof. destruct mode, w; reflexivity. Qed.

Definition clock_now (w : World) : string :=
  toISOString (Z.of_N (Date_now w (clock_reads w))).

(** C3.  For a buffer that parses to an object: in sustainability mode
    an object without [timestamp] is submitted with the field added,
    holding the current clock reading in ISO form, and an object whose
    [timestamp] is [2024-01-01T00:00:00Z] is submitted as it is; in legacy
    mode the object is submitted as it is. *)
Theorem handleSubmit_timestamp
    (st : IngestionTab) (w : World) (o : gmap string json) :
  JSON_parse (jsonInput st) = inr (JObj o) →
  (ingestionType st = sustainability → o !! "timestamp" = None →
     effects (handleSubmit st w).2
     = effects w
       ++ [submission st sustainability
             (JObj (<["timestamp" := JStr (clock_now w)]> o))])
  ∧ (ingestionType st = sustainability →
     o !! "timestamp" = Some (JStr "2024-01-01T00:00:00Z") →
     effects (handleSubmit st w).2
     = effects w ++ [submission st sustainability (JObj o)])
  ∧ (ingestionType st = legacy →
     effects (handleSubmit st w).2
     = effects w ++ [submission st legacy (JObj o)]).
Proof.
  intros Hp. unfold handleSubmit.
  rewrite (parsed_not_blank _ _ Hp), Hp.
  split; [|split].
  - intros -> Hts. unfold ensure_timestamp. rewrite Hts. simpl.
    unfold mbind, M_bind. destruct w; simpl. reflexivity.
  - intros -> Hts. unfold ensure_timestamp. rewrite Hts. simpl.
    unfold mbind, M_bind. destruct w; simpl. reflexivity.
  - intros ->. unfold mbind, M_bind. destruct w; simpl. reflexivity.
Qed.

(** C7.  In either mode a blank buffer and a buffer that does not parse
    lead to one notice and to no network call, with the state left as it
    is; and whenever a submission issues a network call, the buffer is
    not blank and parses. *)
Theorem handleSubmit_validates (st : IngestionTab) (w : World) :
  (trim (jsonInput st) = "" →
     handleSubmit st w
     = (st, with_effects w [Alert "Please enter JSON payload or load an example"]))
  ∧ (∀ e, trim (jsonInput st) ≠ "" → JSON_parse (jsonInput st) = inl e →
     handleSubmit st w = (st, with_effects w [Alert ("Invalid JSON: " +:+ e)]))
  ∧ (∃ new, effects (handleSubmit st w).2 = effects w ++ new
            ∧ ∀ e, e ∈ new → is_Post e →
                   trim (jsonInput st) ≠ ""
                   ∧ ∃ v, JSON_parse (jsonInput st) = inr v).
Proof.
  split; [|split].
  - intros Hb. unfold handleSubmit. apply blank_spec in Hb. rewrite Hb.
    by destruct w.
  - intros e Hb Hp. unfold handleSubmit. apply blank_false in Hb.
    rewrite Hb, Hp. by destruct w.
  - destruct w as [now reads rnd draws eff].
    unfold handleSubmit. destruct (blank (jsonInput st)) eqn:Hb.
    { exists [Alert "Please enter JSON payload or load an example"].
      split; [done|].
      intros e He. apply list_elem_of_singleton in He as ->. done. }
    apply blank_false in Hb.
    destruct (JSON_parse (jsonInput st)) as [e|v] eqn:Hp.
    { exists [Alert ("Invalid JSON: " +:+ e)].
      split; [done|].
      intros e' He. apply list_elem_of_singleton in He as ->. done. }
    assert (Hok : ∀ new : list Effect, ∀ e, e ∈ new → is_Post e →
              trim (jsonInput st) ≠ "" ∧ ∃ v0, inr v = inr v0 :> string + json)
      by (intros; split; [done | by exists v]).
    destruct (ingestionType st).
    + unfold ensure_timestamp.
      destruct v as [|b|q|s|l|o]; try destruct (truthy_opt (o !! "timestamp"));
        eexists; (split; [simpl; reflexivity | apply Hok]).
    + eexists. split; [simpl; reflexivity | apply Hok].
Qed.

End Submit.

Section SubmitExamples.
Import Portal Fixture.

Definition typed (buffer : string) (mode : IngestionType) : IngestionTab :=
  setIngestionType mode (setJsonInput buffer (mounted [])).

Lemma handleSubmit_timestamp_witness :
  effects (handleSubmit (typed "{}" sustainability) ticking).2
  = [ Post "/api/telemetry/ingest" [("X-Ingestion-Source", "manual-entry")]
           (obj [("timestamp", JStr "2024-01-01T00:00:00.000Z")]) ]
  ∧ effects (handleSubmit
               (typed (json_text "{'timestamp':'2024-01-01T00:00:00Z'}") sustainability)
               ticking).2
    = [ Post "/api/telemetry/ingest" [("X-Ingestion-Source", "manual-entry")]
             (obj [("timestamp", JStr "2024-01-01T00:00:00Z")]) ]
  ∧ effects (handleSubmit (typed (json_text "{'CO2_ppm':420}") legacy) ticking).2
    = [ Post "/api/alerts/process-telemetry" [] (obj [("CO2_ppm", JNum 420)]) ].
Proof.
  split; [|split].
  - destruct (handleSubmit_timestamp (typed "{}" sustainability) ticking ∅)
      as (Hadd & _ & _); [reflexivity|].
    rewrite Hadd by reflexivity. vm_compute. reflexivity.
  - destruct (handleSubmit_timestamp
                (typed (json_text "{'timestamp':'2024-01-01T00:00:00Z'}") sustainability)
                ticking {["timestamp" := JStr "2024-01-01T00:00:00Z"]})
      as (_ & Hkeep & _); [vm_compute; reflexivity|].
    rewrite Hkeep by reflexivity. vm_compute. reflexivity.
  - destruct (handleSubmit_timestamp
                (typed (json_text "{'CO2_ppm':420}") legacy)
                ticking {["CO2_ppm" := JNum 420]})
      as (_ & _ & Hlegacy); [vm_compute; reflexivity|].
    rewrite Hlegacy by reflexivity. vm_compute. reflexivity.
Defined.

Lemma handleSubmit_validates_witness :
  effects (handleSubmit (typed "{bad json" sustainability) ticking).2
  = [Alert "Invalid JSON: Unexpected token"]
  ∧ effects (handleSubmit (typed "   " legacy) ticking).2
    = [Alert "Please enter JSON payload or load an example"].
Proof.
  split.
  - rewrite (proj1 (proj2 (handleSubmit_validates
               (typed "{bad json" sustainability) ticking))
               "Unexpected token"); [reflexivity| |reflexivity].
    intros Hb. vm_compute in Hb. discriminate.
  - rewrite (proj1 (handleSubmit_validates (typed "   " legacy) ticking));
      reflexivity.
Defined.

End SubmitExamples.

(** ** Error normalisation *)

Section ErrorMessages.
Import Http.
Context `{Engine}.


(** C6, the fetch wrapper on a structured error body.  When a
    non-success response carries a body whose [error] field is an object,
    the wrapper passes that object itself to the error constructor, so
    the message is the text every object converts to and not the
    [error.message] of the body. *)
Theorem request_structured_error
    (res : LegacyApi.FetchResponse) (o e : gmap string json) :
  LegacyApi.ok res = false →
  JSON_parse (LegacyApi.res_text res) = inr (JObj o) →
  o !! "error" = Some (JObj e) →
  LegacyApi.request res
  = inl {| message := "[object Object]";
           status := Some (LegacyApi.res_status res);
           data := Some (JObj o) |}.
Proof.
  intros Hok Hp He. unfold LegacyApi.request, LegacyApi.parse_body.
  assert (Htext : LegacyApi.res_text res ≠ "").
  { intros Hempty. destruct (JSON_parse_blank (LegacyApi.res_text res)) as [err Herr].
    - by rewrite Hempty.
    - congruence. }
  rewrite Hok, bool_decide_eq_false_2, Hp by done. simpl.
  unfold LegacyApi.error_text, LegacyApi.opt_get. simpl. by rewrite He.
Qed.

End ErrorMessages.

Section ErrorMessagesExamples.
Import Http Fixture.

Definition bad_request : LegacyApi.FetchResponse :=
  {| LegacyApi.res_status := 400;
     LegacyApi.res_statusText := "Bad Request";
     LegacyApi.res_text :=
       json_text "{'error':{'code':'VALIDATION_ERROR','message':'bad field'}}" |}.

Lemma request_structured_error_witness :
  LegacyApi.request bad_request
  = inl {| message := "[object Object]"; status := Some 400%Z;
           data := Some error_body |}.
Proof.
  apply (request_structured_error bad_request _
           {["code" := JStr "VALIDATION_ERROR"; "message" := JStr "bad field"]}).
  - reflexivity.
  - reflexivity.
  - vm_compute. reflexivity.
Defined.

(** The same body through the axios client. *)
Example on_rejected_bad_request :
  Client.on_rejected
    {| Client.axios_message := "Request failed with status code 400";
       Client.response :=
         Some {| Client.response_status := 400;
                 Client.response_data := Some error_body |} |}
  = {| message := "bad field"; status := Some 400%Z; data := Some error_body |}.
Proof. vm_compute. reflexivity. Qed.

End ErrorMessagesExamples.

(** ** Display names *)

Section DisplayNames.
Import Format.

Fixpoint underscore_free (s : string) : Prop :=
  match s with
  | EmptyString => True
  | String c r => c ≠ "_"%char ∧ underscore_free r
  end.

Lemma underscore_free_app a b :
  underscore_free a → underscore_free b → underscore_free (a +:+ b).
Proof. induction a as [|c a IH]; simpl; [done|]. intros [? ?] ?. auto. Qed.

Lemma toUpperCase_underscore c : toUpperCase c = "_"%char → c = "_"%char.
Proof.
  destruct c as [[] [] [] [] [] [] [] []]; vm_compute; intros Heq;
    (discriminate Heq || reflexivity).
Qed.

Lemma underscores_to_spaces_free s : underscore_free (underscores_to_spaces s).
Proof.
  induction s as [|c s IH]; simpl; [done|]. split; [|done].
  case_bool_decide; [discriminate | done].
Qed.

Lemma capitalize_words_free b s :
  underscore_free s → underscore_free (capitalize_words b s).
Proof.
  revert b. induction s as [|c s IH]; intros b; simpl; [done|].
  intros [Hc Hs]. split; [|by apply IH].
  destruct (is_word c && negb b); [|done].
  intros Hup. by apply toUpperCase_underscore in Hup.
Qed.

Lemma replace_go_free pat rep skip s :
  underscore_free rep → underscore_free s →
  underscore_free (replace_go pat rep skip s).
Proof.
  intros Hrep. revert skip. induction s as [|c s IH]; intros skip; [done|].
  intros [Hc Hs]. cbn [replace_go]. destruct skip as [|k]; [|by apply IH].
  destruct (strip_prefix pat (String c s)).
  - apply underscore_free_app; [done | by apply IH].
  - split; [done | by apply IH].
Qed.

Lemma replacements_free (l : list (string * string)) acc :
  Forall (λ pr, underscore_free pr.2) l → underscore_free acc →
  underscore_free (fold_left (λ acc '(pat, rep), replace_all pat rep acc) l acc).
Proof.
  revert acc. induction l as [|[pat rep] l IH]; intros acc Hall Hacc; [done|].
  apply Forall_cons in Hall as [Hrep Hall]. simpl. apply IH; [done|].
  by apply replace_go_free.
Qed.

Lemma replace_all_empty pat rep s :
  rep ≠ "" → (replace_all pat rep s = "" ↔ s = "").
Proof.
  intros Hrep. destruct s as [|c s]; [done|]. unfold replace_all. cbn [replace_go].
  destruct (strip_prefix pat (String c s)); split; try done.
  destruct rep; [done | discriminate].
Qed.

Lemma replacements_empty (l : list (string * string)) acc :
  Forall (λ pr, pr.2 ≠ "") l →
  (fold_left (λ acc '(pat, rep), replace_all pat rep acc) l acc = "" ↔ acc = "").
Proof.
  revert acc. induction l as [|[pat rep] l IH]; intros acc Hall; [done|].
  apply Forall_cons in Hall as [Hrep Hall]. simpl.
  rewrite IH by done. by apply replace_all_empty.
Qed.

Lemma REPLACEMENTS_free : Forall (λ pr, underscore_free pr.2) REPLACEMENTS.
Proof. unfold REPLACEMENTS. repeat constructor; discriminate. Qed.

Lemma REPLACEMENTS_nonempty : Forall (λ pr : string * string, pr.2 ≠ "") REPLACEMENTS.
Proof. unfold REPLACEMENTS. repeat constructor; discriminate. Qed.

(** X1.  The display name of a metric type holds no underscore, whatever
    the type, and it is empty only for the empty type. *)
Theorem formatMetricName_no_underscore (metricType : string) :
  underscore_free (formatMetricName metricType)
  ∧ (formatMetricName metricType = "" ↔ metricType = "").
Proof.
  unfold formatMetricName. split.
  - apply replacements_free; [apply REPLACEMENTS_free|].
    apply capitalize_words_free, underscores_to_spaces_free.
  - rewrite replacements_empty by apply REPLACEMENTS_nonempty.
    destruct metricType; simpl; split; (done || discriminate).
Qed.

Example formatMetricName_samples :
  formatMetricName "pue" = "PUE"
  ∧ formatMetricName "utilization_pct" = "Utilization %"
  ∧ formatMetricName "scope2_market_kg_co2e" = "Scope2 Market kg CO₂e"
  ∧ formatMetricName "water_per_gpu_hour" = "Water per GPU Hour"
  ∧ formatMetricName "facility_kwh" = "Facility kWh"
  ∧ formatMetricName "performance_index" = "performance Index".
Proof. vm_compute. repeat split. Qed.

End DisplayNames.

(** ** Metric sections *)

Section SectionFlags.
Import Dashboard Sections.

Definition flags (section : string + list Card) : list bool :=
  match section with
  | inr cards => critical <$> cards
  | inl _ => []
  end.

Lemma flags_MetricSection l msg check :
  flags (MetricSection (Some l) msg check)
  = (λ m, match check with Some c => c m | None => false end) <$> l.
Proof.
  destruct l as [|m l]; [done|]. unfold MetricSection, flags.
  by rewrite <- list_fmap_compose.
Qed.

Lemma flags_TelemetryDashboard_MetricSection l msg :
  flags (TelemetryDashboard_MetricSection (Some l) msg) = isCritical <$> l.
Proof.
  destruct l as [|m l]; [done|]. unfold TelemetryDashboard_MetricSection, flags.
  by rewrite <- list_fmap_compose.
Qed.

(** X2.  In the combined portal the cards of the carbon, water,
    efficiency and hardware sections are flagged by the critical
    predicate, and no card of the data-quality section is ever flagged; in
    the stand-alone dashboard the cards of all five sections are flagged by
    the predicate. *)
Theorem data_quality_never_flagged (data : Report) :
  flags <$> DashboardTab_sections data
  = [ isCritical <$> default [] (carbon data);
      isCritical <$> default [] (water data);
      isCritical <$> default [] (efficiency data);
      isCritical <$> default [] (hardware data);
      (λ _, false) <$> default [] (data_quality data) ]
  ∧ flags <$> TelemetryDashboard_sections data
    = [ isCritical <$> default [] (carbon data);
        isCritical <$> default [] (water data);
        isCritical <$> default [] (efficiency data);
        isCritical <$> default [] (hardware data);
        isCritical <$> default [] (data_quality data) ].
Proof.
  unfold DashboardTab_sections, TelemetryDashboard_sections.
  rewrite !fmap_cons, !fmap_nil.
  by rewrite !flags_MetricSection, !flags_TelemetryDashboard_MetricSection.
Qed.

End SectionFlags.

(** ** Summary statistics *)

Section SummaryProperties.
Import Dashboard.
Local Open Scope Q_scope.

(** [x] is a number other than zero. *)
Definition nonzero (v : option Q) : bool :=
  match v with
  | Some q => negb (Qeq_bool q 0)
  | None => false
  end.

Lemma find_type_type t metrics m :
  find_type t metrics = Some m → metric_type m = t.
Proof.
  destruct metrics as [l|]; [|done]. simpl. intros Hfind.
  apply find_some in Hfind as [_ Ht]. by apply is_type_spec in Ht.
Qed.

Lemma gt_or_null v : gt (or_null v) 2.0 = gt v 2.0.
Proof.
  destruct v as [q|]; [|done]. simpl.
  destruct (Qeq_bool q 0) eqn:Hz; [|done]. simpl. symmetry.
  apply Qeq_bool_iff in Hz. apply not_true_is_false. intros Hlt.
  apply Qltb_lt in Hlt. rewrite Hz in Hlt. by apply two_point_zero in Hlt.
Qed.

Lemma isCritical_pue m :
  metric_type m = "pue" → isCritical m = gt (value m) 2.0.
Proof.
  intros Ht. unfold isCritical, is_type. rewrite Ht. simpl.
  by rewrite !orb_false_r.
Qed.

Lemma isCritical_utilization m :
  metric_type m = "utilization_pct" → isCritical m = lt (value m) 30.
Proof.
  intros Ht. unfold isCritical, is_type. rewrite Ht. simpl.
  by rewrite !orb_false_r.
Qed.

(** X3.  The summary PUE flag is the critical predicate of the first
    [pue] metric of the efficiency category.  The summary utilization flag
    is the critical predicate of the first [utilization_pct] metric of the
    hardware category only while the value of that metric is not zero: an
    idle machine is critical as a metric and not in the summary.  Without
    such a metric the flags are off. *)
Theorem summary_flags_follow_first_metric (data : Report) :
  (∀ m, find_type "pue" (efficiency data) = Some m →
        avgPUE_critical (summaryStats data) = isCritical m)
  ∧ (∀ m, find_type "utilization_pct" (hardware data) = Some m →
          avgUtilization_critical (summaryStats data)
          = isCritical m && nonzero (value m))
  ∧ (find_type "pue" (efficiency data) = None →
     avgPUE_critical (summaryStats data) = false)
  ∧ (find_type "utilization_pct" (hardware data) = None →
     avgUtilization_critical (summaryStats data) = false).
Proof.
  split; [|split; [|split]].
  - intros m Hfind. pose proof (find_type_type _ _ _ Hfind) as Ht.
    rewrite (isCritical_pue m Ht).
    unfold avgPUE_critical. simpl. rewrite Hfind. simpl.
    rewrite gt_or_null.
    destruct (value m) as [q|]; [|done]. simpl.
    destruct (Qeq_bool q 0) eqn:Hz; simpl.
    + symmetry. apply not_true_is_false. intros Hlt.
      apply Qltb_lt in Hlt. apply Qeq_bool_iff in Hz. rewrite Hz in Hlt.
      by apply two_point_zero in Hlt.
    + done.
  - intros m Hfind. pose proof (find_type_type _ _ _ Hfind) as Ht.
    rewrite (isCritical_utilization m Ht).
    unfold avgUtilization_critical. simpl. rewrite Hfind. simpl.
    destruct (value m) as [q|]; [|done]. simpl.
    destruct (Qeq_bool q 0) eqn:Hz; simpl.
    + by rewrite andb_false_r.
    + by rewrite andb_true_r.
  - intros Hfind. unfold avgPUE_critical. simpl. by rewrite Hfind.
  - intros Hfind. unfold avgUtilization_critical. simpl. by rewrite Hfind.
Qed.

Lemma summary_flags_follow_first_metric_witness :
  avgUtilization_critical (summaryStats idle_report) = false
  ∧ avgPUE_critical
      (summaryStats
         {| carbon := None; water := None;
            efficiency := Some [metric "pue" (Some 2.4); metric "pue" (Some 1.1)];
            hardware := None; data_quality := None;
            sustainability_score := None |}) = true.
Proof.
  split.
  - rewrite (proj1 (proj2 (summary_flags_follow_first_metric idle_report))
               (metric "utilization_pct" (Some 0))); reflexivity.
  - rewrite (proj1 (summary_flags_follow_first_metric _)
               (metric "pue" (Some 2.4))); reflexivity.
Defined.

End SummaryProperties.

(** ** Submission: timestamps and payloads that are no objects *)

Section SubmitEdges.
Import Portal.
Context `{Engine}.

(** X4.  In sustainability mode the timestamp of a parsed object is
    kept exactly when it is truthy: a timestamp that is present but is
    [null], [false], [0] or the empty string is replaced by the clock
    reading, like a missing one.  No other field of the object is
    touched. *)
Theorem handleSubmit_falsy_timestamp
    (st : IngestionTab) (w : World) (o : gmap string json) (v : json) :
  JSON_parse (jsonInput st) = inr (JObj o) →
  ingestionType st = sustainability →
  o !! "timestamp" = Some v →
  (truthy v = true →
     effects (handleSubmit st w).2
     = effects w ++ [submission st sustainability (JObj o)])
  ∧ (truthy v = false →
     effects (handleSubmit st w).2
     = effects w
       ++ [submission st sustainability
             (JObj (<["timestamp" := JStr (clock_now w)]> o))])
  ∧ (∀ k, k ≠ "timestamp" →
          (<["timestamp" := JStr (clock_now w)]> o) !! k = o !! k).
Proof.
  intros Hp Hmode Hts. unfold handleSubmit.
  rewrite (parsed_not_blank _ _ Hp), Hp, Hmode.
  unfold ensure_timestamp. rewrite Hts. simpl.
  split; [|split].
  - intros ->. unfold mbind, M_bind. by destruct w.
  - intros ->. unfold mbind, M_bind. by destruct w.
  - intros k Hk. by rewrite lookup_insert_ne.
Qed.

(** A parsed value that is neither an object nor an array. *)
Definition primitive (v : json) : Prop :=
  match v with
  | JNull | JBool _ | JNum _ | JStr _ => True
  | JArr _ | JObj _ => False
  end.

(** X5.  A buffer that parses to [null], a boolean, a number or a
    string is refused in sustainability mode with the notice of an invalid
    document and without network call, whereas legacy mode submits it as
    it is; an array is submitted as it is in both modes. *)
Theorem handleSubmit_not_an_object
    (st : IngestionTab) (w : World) (v : json) :
  JSON_parse (jsonInput st) = inr v →
  (primitive v → ingestionType st = sustainability →
     effects (handleSubmit st w).2
     = effects w ++ [Alert ("Invalid JSON: " +:+ TypeError_message v)])
  ∧ (primitive v → ingestionType st = legacy →
     effects (handleSubmit st w).2 = effects w ++ [submission st legacy v])
  ∧ (∀ l, v = JArr l →
     effects (handleSubmit st w).2
     = effects w ++ [submission st (ingestionType st) v]).
Proof.
  intros Hp. unfold handleSubmit. rewrite (parsed_not_blank _ _ Hp), Hp.
  split; [|split].
  - intros Hv ->. destruct v; try done; destruct w; reflexivity.
  - intros Hv ->. destruct w; reflexivity.
  - intros l ->. destruct (ingestionType st), w; reflexivity.
Qed.

End SubmitEdges.

Section SubmitEdgesExamples.
Import Portal Samples.

Lemma handleSubmit_falsy_timestamp_witness :
  effects (handleSubmit
             (typed (Fixture.json_text "{'timestamp':0,'energy':{}}") sustainability)
             Fixture.ticking).2
  = [ Post "/api/telemetry/ingest" [("X-Ingestion-Source", "manual-entry")]
           (obj [ ("timestamp", JStr "2024-01-01T00:00:00.000Z");
                  ("energy", JObj ∅) ]) ].
Proof.
  destruct (handleSubmit_falsy_timestamp
              (typed (Fixture.json_text "{'timestamp':0,'energy':{}}") sustainability)
              Fixture.ticking
              {["timestamp" := JNum 0; "energy" := JObj ∅]} (JNum 0))
    as (_ & Hreplace & _);
    [vm_compute; reflexivity | reflexivity | vm_compute; reflexivity |].
  rewrite Hreplace by reflexivity. vm_compute. reflexivity.
Defined.

Lemma handleSubmit_not_an_object_witness :
  effects (handleSubmit (typed "42" sustainability) Fixture.ticking).2
  = [Alert "Invalid JSON: Cannot create property 'timestamp' on a primitive value"]
  ∧ effects (handleSubmit (typed "null" legacy) Fixture.ticking).2
    = [Post "/api/alerts/process-telemetry" [] JNull]
  ∧ effects (handleSubmit (typed "[1]" sustainability) Fixture.ticking).2
    = [Post "/api/telemetry/ingest" [("X-Ingestion-Source", "manual-entry")]
            (JArr [JNum 1])].
Proof.
  split; [|split].
  - destruct (handleSubmit_not_an_object (typed "42" sustainability)
                Fixture.ticking (JNum 42)) as (Hrefuse & _ & _); [reflexivity|].
    rewrite Hrefuse; done.
  - destruct (handleSubmit_not_an_object (typed "null" legacy)
                Fixture.ticking JNull) as (_ & Hlegacy & _); [reflexivity|].
    rewrite Hlegacy; done.
  - destruct (handleSubmit_not_an_object (typed "[1]" sustainability)
                Fixture.ticking (JArr [JNum 1])) as (_ & _ & Harray); [reflexivity|].
    rewrite (Harray [JNum 1]); done.
Defined.

End SubmitEdgesExamples.

(** ** Sequences of events on the custom mock store *)

Section MockEvents.
Import Portal Events.
Context `{Engine}.

(** What the list looks like to the user: name, payload text and mode of
    each mock. *)
Definition shown (m : Mock) : string * string * IngestionType :=
  (name m, payload m, type m).

(** The lists written to storage by a run of effects, oldest first. *)
Definition writes (es : list Effect) : list json :=
  omap (λ e, match e with
             | SetItem key v =>
                 if bool_decide (key = CUSTOM_MOCKS_STORAGE_KEY) then Some v else None
             | _ => None
             end) es.

Definition stored (st : IngestionTab) : json :=
  JArr (Mock_to_json <$> customMocks st).

Lemma persist_run st w :
  (committed st ∧ persist_customMocks st w = (st, w))
  ∨ (¬ committed st
     ∧ customMocks (persist_customMocks st w).1 = customMocks st
     ∧ jsonInput (persist_customMocks st w).1 = jsonInput st
     ∧ ingestionType (persist_customMocks st w).1 = ingestionType st
     ∧ committed (persist_customMocks st w).1
     ∧ (persist_customMocks st w).2
       = with_effects w [SetItem CUSTOM_MOCKS_STORAGE_KEY (stored st)]).
Proof.
  destruct (decide (committed st)) as [Hc|Hc].
  - left. split; [done | by apply persist_committed].
  - right. split; [done|]. unfold persist_customMocks.
    rewrite bool_decide_eq_false_2 by done. by destruct w.
Qed.

Lemma persist_list st w :
  customMocks (persist_customMocks st w).1 = customMocks st.
Proof.
  by destruct (persist_run st w) as [[_ ->]|(_ & -> & _)].
Qed.

Lemma dispatch_list handler st w :
  customMocks (dispatch handler st w).1 = customMocks (handler st w).1.
Proof.
  unfold dispatch, mbind, M_bind. destruct (handler st w) as [st' w'].
  apply persist_list.
Qed.

Lemma save_as_valid name' buffer mode st w v :
  trim name' ≠ "" → JSON_parse buffer = inr v →
  customMocks (save_as name' buffer mode st w).1
  = {| id := custom_id (Date_now w (clock_reads w));
       name := trim name'; payload := trim buffer; type := mode;
       savedAt := toISOString (Z.of_N (Date_now w (S (clock_reads w)))) |}
    :: customMocks st
  ∧ Date_now (save_as name' buffer mode st w).2 = Date_now w
  ∧ clock_reads (save_as name' buffer mode st w).2 = S (S (clock_reads w)).
Proof.
  intros Hn Hp. unfold save_as, dispatch, mbind, M_bind.
  rewrite (save_parsed _ _ v) by done.
  match goal with |- context [persist_customMocks ?a ?b] =>
    destruct (persist_run a b) as [[_ ->]|(_ & -> & _ & _ & _ & ->)] end;
    by destruct w.
Qed.

(** X6.  A run of saves that all carry a name and a parsable buffer
    makes the list longer by one mock per save and shows the saves in
    reverse order, the last one first, in front of the mocks that were
    there, each with its trimmed name, its trimmed buffer and its mode. *)
Theorem save_all_prepends
    (inputs : list (string * string * IngestionType))
    (st : IngestionTab) (w : World) :
  Forall (λ i, trim i.1.1 ≠ "" ∧ ∃ v, JSON_parse i.1.2 = inr v) inputs →
  shown <$> customMocks (save_all inputs st w).1
  = reverse ((λ i, (trim i.1.1, trim i.1.2, i.2)) <$> inputs)
    ++ (shown <$> customMocks st)
  ∧ length (customMocks (save_all inputs st w).1)
    = (length inputs + length (customMocks st))%nat.
Proof.
  intros Hvalid.
  assert (Hshown : shown <$> customMocks (save_all inputs st w).1
                   = reverse ((λ i, (trim i.1.1, trim i.1.2, i.2)) <$> inputs)
                     ++ (shown <$> customMocks st)).
  { revert st w. induction Hvalid as [|[[name' buffer] mode] rest [Hn [v Hp]] _ IH];
      intros st w; [done|].
    simpl. unfold mbind, M_bind.
    destruct (save_as name' buffer mode st w) as [st' w'] eqn:Hsave.
    pose proof (save_as_valid name' buffer mode st w v Hn Hp) as [Hlist _].
    rewrite Hsave in Hlist. simpl in Hlist.
    rewrite IH, Hlist, reverse_cons, fmap_cons, <- app_assoc. done. }
  split; [done|].
  rewrite <- (length_fmap shown), Hshown, length_app, length_reverse, !length_fmap.
  done.
Qed.

(** X7.  Saving the buffer and then deleting the mock just saved gives
    the list back as it was, provided no mock of the list already had the
    id of the new one. *)
Theorem save_then_delete
    (name' buffer : string) (mode : IngestionType)
    (st : IngestionTab) (w : World) (v : json) :
  trim name' ≠ "" → JSON_parse buffer = inr v →
  custom_id (Date_now w (clock_reads w)) ∉ ids st →
  customMocks
    (tab_run [Save name' buffer mode;
              Delete (custom_id (Date_now w (clock_reads w)))] st w).1
  = customMocks st.
Proof.
  intros Hn Hp Hfresh. simpl. unfold mbind, M_bind, mret, M_ret.
  destruct (save_as name' buffer mode st w) as [st' w'] eqn:Hsave.
  pose proof (save_as_valid name' buffer mode st w v Hn Hp) as [Hlist _].
  rewrite Hsave in Hlist. simpl in Hlist.
  destruct (dispatch _ st' w') as [st'' w''] eqn:Hdel. simpl.
  pose proof (dispatch_list
                (handleDeleteCustomMock (custom_id (Date_now w (clock_reads w))))
                st' w') as Hd.
  rewrite Hdel in Hd. simpl in Hd. rewrite Hd, Hlist.
  rewrite filter_cons_False by (simpl; tauto).
  apply filter_all. intros m Hm Heq. apply Hfresh.
  rewrite <- Heq. by apply list_elem_of_fmap_2.
Qed.

(** One event keeps the store in step with the list. *)
Lemma tab_step_sync ev st w :
  committed st →
  committed (tab_step ev st w).1
  ∧ ∃ new, effects (tab_step ev st w).2 = effects w ++ new
           ∧ ((writes new = [] ∧ customMocks (tab_step ev st w).1 = customMocks st)
              ∨ writes new = [stored (tab_step ev st w).1]).
Proof.
  intros Hc. split; [destruct ev; apply dispatch_committed|].
  destruct ev as [name' buffer mode|id'|mock]; simpl.
  - unfold save_as, dispatch, mbind, M_bind.
    set (st0 := setIngestionType mode (setJsonInput buffer (setCustomMockName name' st))).
    assert (Hc0 : committed st0) by done.
    destruct (decide (trim (jsonInput st0) = "")) as [Hb|Hb];
      [|destruct (decide (trim (customMockName st0) = "")) as [Hn|Hn]].
    + rewrite save_blank by tauto. rewrite persist_committed by done.
      exists []. split; [by rewrite app_nil_r | by left].
    + rewrite save_blank by tauto. rewrite persist_committed by done.
      exists []. split; [by rewrite app_nil_r | by left].
    + destruct (JSON_parse (jsonInput st0)) as [e|v] eqn:Hp.
      * rewrite (save_unparsed _ _ e) by done. rewrite persist_committed by done.
        eexists. split; [by destruct w | by left].
      * rewrite (save_parsed _ _ v) by done.
        match goal with |- context [persist_customMocks ?a ?b] =>
          destruct (persist_run a b) as [[Hcc _]|(_ & Hl & _ & _ & _ & ->)] end.
        { unfold committed in Hcc, Hc0. simpl in Hcc, Hc0. lia. }
        eexists. split; [by destruct w|]. right. unfold stored. by rewrite Hl.
  - unfold dispatch, mbind, M_bind. simpl.
    match goal with |- context [persist_customMocks ?a ?b] =>
      destruct (persist_run a b) as [[Hcc _]|(_ & Hl & _ & _ & _ & ->)] end.
    { unfold committed in Hcc, Hc. simpl in Hcc. lia. }
    eexists. split; [by destruct w|]. right. unfold stored. by rewrite Hl.
  - unfold dispatch, mbind, M_bind. simpl. rewrite persist_committed by done.
    exists []. split; [by rewrite app_nil_r | by left].
Qed.

Lemma writes_app a b : writes (a ++ b) = writes a ++ writes b.
Proof. unfold writes. apply omap_app. Qed.

(** X8.  Through any sequence of saves, deletions and loads, starting
    with nothing pending, storage follows the list: the list last written
    is the list the component holds, and as long as nothing was written the
    list is the one the sequence started with. *)
Theorem storage_follows_list (evs : list TabEvent) (st : IngestionTab) (w : World) :
  committed st →
  committed (tab_run evs st w).1
  ∧ ∃ new, effects (tab_run evs st w).2 = effects w ++ new
           ∧ match last (writes new) with
             | Some written => written = stored (tab_run evs st w).1
             | None => customMocks (tab_run evs st w).1 = customMocks st
             end.
Proof.
  revert st w. induction evs as [|ev rest IH]; intros st w Hc.
  - split; [done|]. exists []. split; [by rewrite app_nil_r | done].
  - simpl. unfold mbind, M_bind.
    destruct (tab_step_sync ev st w Hc) as (Hc' & new1 & Heff1 & Hsync1).
    destruct (tab_step ev st w) as [st' w'] eqn:Hstep. simpl in *.
    destruct (IH st' w' Hc') as (Hc'' & new2 & Heff2 & Hsync2).
    split; [done|]. exists (new1 ++ new2).
    split; [by rewrite Heff2, Heff1, app_assoc|].
    rewrite writes_app, last_app.
    destruct (last (writes new2)) as [written|] eqn:Hlast; [done|].
    destruct Hsync1 as [[-> Hlist]|Hw].
    + simpl. by rewrite Hsync2.
    + rewrite Hw. simpl. unfold stored. by rewrite Hsync2.
Qed.

(** X9.  Loading the mock a save has just put in front of the list
    brings the trimmed buffer and the mode of that save back into the
    editor; it changes neither the list nor storage. *)
Theorem save_then_load
    (name' buffer : string) (mode : IngestionType)
    (st : IngestionTab) (w : World) (v : json) (m : Mock) :
  trim name' ≠ "" → JSON_parse buffer = inr v →
  head (customMocks (save_as name' buffer mode st w).1) = Some m →
  jsonInput (dispatch (loadCustomMock m) (save_as name' buffer mode st w).1
                      (save_as name' buffer mode st w).2).1 = trim buffer
  ∧ ingestionType (dispatch (loadCustomMock m) (save_as name' buffer mode st w).1
                            (save_as name' buffer mode st w).2).1 = mode
  ∧ customMocks (dispatch (loadCustomMock m) (save_as name' buffer mode st w).1
                          (save_as name' buffer mode st w).2).1
    = customMocks (save_as name' buffer mode st w).1
  ∧ (dispatch (loadCustomMock m) (save_as name' buffer mode st w).1
              (save_as name' buffer mode st w).2).2
    = (save_as name' buffer mode st w).2.
Proof.
  intros Hn Hp Hhead.
  pose proof (save_as_valid name' buffer mode st w v Hn Hp) as [Hlist _].
  assert (Hc : committed (save_as name' buffer mode st w).1)
    by apply dispatch_committed.
  destruct (save_as name' buffer mode st w) as [st1 w1]. simpl in *.
  rewrite Hlist in Hhead. simpl in Hhead. injection Hhead as <-.
  unfold dispatch, mbind, M_bind. simpl.
  rewrite persist_committed by exact Hc. done.
Qed.

End MockEvents.

Section MockEventsExamples.
Import Portal Events Fixture.

Lemma save_all_prepends_witness :
  shown <$> customMocks
    (save_all [("  first ", "{}", sustainability); ("second", "null", legacy)]
              (mounted two_mocks) ticking).1
  = [("second", "null", legacy); ("first", "{}", sustainability);
     ("b", "{}", legacy); ("a", "{}", sustainability)].
Proof.
  rewrite (proj1 (save_all_prepends
                    [("  first ", "{}", sustainability); ("second", "null", legacy)]
                    (mounted two_mocks) ticking
                    ltac:(repeat constructor; simpl;
                          try (intros Hb; vm_compute in Hb; discriminate);
                          eexists; reflexivity))).
  vm_compute. reflexivity.
Defined.

Lemma save_then_delete_witness :
  customMocks (tab_run [Save "first" "{}" sustainability;
                        Delete "custom-1704067200000"]
                       (mounted two_mocks) ticking).1
  = two_mocks.
Proof.
  apply (save_then_delete "first" "{}" sustainability (mounted two_mocks) ticking
                          (JObj ∅)).
  - intros Hb. vm_compute in Hb. discriminate.
  - reflexivity.
  - intros Hin. vm_compute in Hin.
    repeat (apply elem_of_cons in Hin as [Hin|Hin]; [discriminate|]).
    by apply elem_of_nil in Hin.
Defined.

Lemma storage_follows_list_witness :
  last (writes (effects
          (tab_run [Save "first" "{}" sustainability; Delete "custom-1";
                    Load {| id := "custom-2"; name := "b"; payload := "{}";
                            type := legacy;
                            savedAt := "1970-01-01T00:00:00.002Z" |};
                    Save "" "{}" legacy]
                   (mounted two_mocks) ticking).2))
  = Some (stored (tab_run [Save "first" "{}" sustainability; Delete "custom-1";
                           Load {| id := "custom-2"; name := "b"; payload := "{}";
                                   type := legacy;
                                   savedAt := "1970-01-01T00:00:00.002Z" |};
                           Save "" "{}" legacy]
                          (mounted two_mocks) ticking).1).
Proof.
  destruct (storage_follows_list
              [Save "first" "{}" sustainability; Delete "custom-1";
               Load {| id := "custom-2"; name := "b"; payload := "{}";
                       type := legacy; savedAt := "1970-01-01T00:00:00.002Z" |};
               Save "" "{}" legacy]
              (mounted two_mocks) ticking eq_refl) as (_ & new & Heff & Hsync).
  rewrite Heff. change (effects ticking) with (@nil Effect). simpl app.
  destruct (last (writes new)) as [written|]; [by rewrite Hsync|].
  exfalso. vm_compute in Hsync. discriminate.
Defined.

Lemma save_then_load_witness :
  jsonInput
    (dispatch (loadCustomMock
                 {| id := "custom-1704067200000"; name := "first"; payload := "{}";
                    type := legacy; savedAt := "2024-01-01T00:00:00.001Z" |})
              (save_as " first" "{}" legacy (mounted []) ticking).1
              (save_as " first" "{}" legacy (mounted []) ticking).2).1
  = "{}".
Proof.
  rewrite (proj1 (save_then_load " first" "{}" legacy (mounted []) ticking (JObj ∅) _
                    ltac:(intros Hb; vm_compute in Hb; discriminate)
                    ltac:(reflexivity) ltac:(vm_compute; reflexivity))).
  vm_compute. reflexivity.
Defined.

End MockEventsExamples.

(** ** The shell under arbitrary events *)

Section ShellEvents.
Import Portal Events.

(** The clock never runs backwards. *)
Definition non_decreasing (w : World) : Prop :=
  ∀ i j, (i ≤ j)%nat → (Date_now w i ≤ Date_now w j)%N.

Definition newest_first (l : list N) : Prop :=
  StronglySorted (λ a b, (b ≤ a)%N) l.

(** The history is capped, its ids are readings already taken, and they
    are in order. *)
Definition history_ok (sh : Shell) (w : World) : Prop :=
  (length (ingestionHistory sh) ≤ 20)%nat
  ∧ newest_first (entry_id <$> ingestionHistory sh)
  ∧ Forall (λ t, ∃ i, (i < clock_reads w)%nat ∧ t = Date_now w i)
           (entry_id <$> ingestionHistory sh).

Lemma newest_first_take n l : newest_first l → newest_first (take n l).
Proof.
  intros Hl. rewrite <- (take_drop n l) in Hl.
  by apply StronglySorted_app_1_l in Hl.
Qed.

Lemma shell_step_ok ev sh w :
  non_decreasing w → history_ok sh w →
  Date_now (shell_step ev sh w).2 = Date_now w
  ∧ history_ok (shell_step ev sh w).1 (shell_step ev sh w).2.
Proof.
  intros Hmono (Hlen & Hsorted & Hread).
  destruct ev as [mode d| |tab]; unfold shell_step.
  - rewrite handleIngestSuccess_run. unfold history_ok. cbn -[take].
    split; [done|]. split; [|split].
    + rewrite length_take. lia.
    + rewrite fmap_take. apply SSorted_cons.
      * by apply newest_first_take.
      * apply Forall_take. eapply Forall_impl; [exact Hread|].
        intros t (i & Hi & ->). apply Hmono. lia.
    + apply Forall_cons. split; [exists (clock_reads w); split; [lia | done]|].
      rewrite fmap_take. apply Forall_take. eapply Forall_impl; [exact Hread|].
      intros t (i & Hi & ->). exists i. split; [lia | done].
  - split; [done|]. split; [simpl; lia|]. split; constructor.
  - done.
Qed.

(** X10.  While the clock does not run backwards, any sequence of
    successful ingestions, clearings of the history and tab selections,
    from the freshly mounted shell, leaves a history of at most 20 entries
    whose ids never increase from an entry to the one after it; and an
    ingestion leaves the dashboard tab selected whichever tab was selected
    before. *)
Theorem shell_run_history
    (evs : list ShellEvent) (tab : string) (w : World) :
  non_decreasing w →
  (length (ingestionHistory (shell_run evs (initial tab) w).1) ≤ 20)%nat
  ∧ newest_first (entry_id <$> ingestionHistory (shell_run evs (initial tab) w).1)
  ∧ (∀ front mode d,
       evs = front ++ [Ingested mode d] →
       activeTab (shell_run evs (initial tab) w).1 = "dashboard").
Proof.
  intros Hmono.
  assert (Hrun : ∀ evs sh w', Date_now w' = Date_now w → history_ok sh w' →
            history_ok (shell_run evs sh w').1 (shell_run evs sh w').2).
  { clear evs. induction evs as [|ev rest IH]; intros sh w' Hnow Hok; [done|].
    simpl. unfold mbind, M_bind.
    assert (Hmono' : non_decreasing w') by (unfold non_decreasing; by rewrite Hnow).
    destruct (shell_step_ok ev sh w' Hmono' Hok) as [Hnow' Hok'].
    destruct (shell_step ev sh w') as [sh' w'']. simpl in *.
    apply IH; [by rewrite Hnow' | done]. }
  assert (Hinit : history_ok (initial tab) w).
  { split; [simpl; lia|]. split; constructor. }
  destruct (Hrun evs (initial tab) w eq_refl Hinit) as (Hlen & Hsorted & _).
  split; [done|]. split; [done|].
  intros front mode d ->. generalize (initial tab) w. clear.
  induction front as [|ev front IH]; intros sh w.
  - cbn [app shell_run shell_step]. unfold mbind, M_bind.
    by rewrite handleIngestSuccess_run.
  - cbn [app shell_run]. unfold mbind, M_bind.
    destruct (shell_step ev sh w) as [sh' w']. apply IH.
Qed.

Lemma shell_run_history_witness :
  newest_first
    (entry_id <$> ingestionHistory
       (shell_run [Ingested legacy JNull; Selected "history"; Cleared;
                   Ingested sustainability JNull; Ingested legacy JNull]
                  (initial "ingest") Fixture.ticking).1).
Proof.
  apply (shell_run_history
           [Ingested legacy JNull; Selected "history"; Cleared;
            Ingested sustainability JNull; Ingested legacy JNull]
           "ingest" Fixture.ticking).
  intros i j Hij. simpl. lia.
Defined.

End ShellEvents.

(** ** The axios client beyond the documented error shape *)

Section AxiosFallbacks.
Import Http.
Context `{Engine}.

(** X11.  The axios client falls back on the transport's own message
    when there is no response, when the body is missing or falsy, and when
    the body has neither a usable [error] nor a [message]; a structured
    error whose own message is missing or empty gives way to the top-level
    message; and an [error] given as a string is the message even when it
    is empty. *)
Theorem on_rejected_fallbacks (err : Client.AxiosError) :
  (Client.response err = None →
     Client.on_rejected err
     = {| message := Client.axios_message err; status := None; data := None |})
  ∧ (∀ r d, Client.response err = Some r → Client.response_data r = d →
            truthy_opt d = false →
            Client.on_rejected err
            = {| message := Client.axios_message err;
                 status := Some (Client.response_status r); data := d |})
  ∧ (∀ r o e s, Client.response err = Some r →
       Client.response_data r = Some (JObj o) →
       o !! "error" = Some (JObj e) → truthy_opt (e !! "message") = false →
       o !! "message" = Some (JStr s) →
       message (Client.on_rejected err) = s)
  ∧ (∀ r o, Client.response err = Some r →
       Client.response_data r = Some (JObj o) →
       o !! "error" = Some (JStr "") →
       message (Client.on_rejected err) = "").
Proof.
  split; [|split; [|split]].
  - intros Hr. unfold Client.on_rejected. by rewrite Hr.
  - intros r d Hr Hd Hfalsy. unfold Client.on_rejected. rewrite Hr. simpl.
    rewrite Hd. destruct d as [d|]; [|done]. simpl in *. by rewrite Hfalsy.
  - intros r o e s Hr Hd He Hm Hs. unfold Client.on_rejected.
    rewrite Hr. simpl. rewrite Hd. simpl. rewrite He. simpl.
    rewrite Hm. simpl. by rewrite Hs.
  - intros r o Hr Hd He. unfold Client.on_rejected.
    rewrite Hr. simpl. rewrite Hd. simpl. by rewrite He.
Qed.

End AxiosFallbacks.

Section AxiosExamples.
Import Http Fixture.



Lemma on_rejected_fallbacks_witness :
  Client.on_rejected
    {| Client.axios_message := "Network Error"; Client.response := None |}
  = {| message := "Network Error"; status := None; data := None |}.
Proof.
  by apply (proj1 (on_rejected_fallbacks
                     {| Client.axios_message := "Network Error";
                        Client.response := None |})).
Defined.

End AxiosExamples.

(** ** The fetch wrapper and the legacy pages *)

Section LegacyRequest.
Import Http LegacyApi.
Context `{Engine}.




End LegacyRequest.

Section LegacyRequestExamples.
Import Http LegacyApi Samples.





End LegacyRequestExamples.

Section BackendStatus.
Import LegacyApp.

(** X15.  The backend status line is green exactly when the health
    checks of all three services were fulfilled, and it then names the
    three services; when none was fulfilled it says so in place of an
    empty list of names. *)
Theorem refreshBackendStatus_colour (fulfilled : string → bool) :
  (status_color (refreshBackendStatus fulfilled) = "green"
   ↔ fulfilled "alerts" = true ∧ fulfilled "compliance" = true
     ∧ fulfilled "simulator" = true)
  ∧ (status_color (refreshBackendStatus fulfilled) = "green" →
     status_text (refreshBackendStatus fulfilled)
     = "All services up (Alerts, Compliance, Simulator).")
  ∧ (fulfilled "alerts" = false → fulfilled "compliance" = false →
     fulfilled "simulator" = false →
     refreshBackendStatus fulfilled
     = {| status_text := "0 up (none), 3 unreachable. Run backends or use Docker.";
          status_color := "orange" |}).
Proof.
  unfold refreshBackendStatus, SERVICES. cbn [List.filter snd fst].
  destruct (fulfilled "alerts"), (fulfilled "compliance"), (fulfilled "simulator");
    vm_compute; repeat split; intros; try discriminate;
    repeat match goal with H : _ ∧ _ |- _ => destruct H end; try discriminate.
Qed.

Lemma refreshBackendStatus_colour_witness :
  refreshBackendStatus (λ _, false)
  = {| status_text := "0 up (none), 3 unreachable. Run backends or use Docker.";
       status_color := "orange" |}
  ∧ status_text (refreshBackendStatus (λ path, negb (bool_decide (path = "simulator"))))
    = "2 up (Alerts, Compliance), 1 unreachable. Run backends or use Docker.".
Proof.
  split.
  - by apply (proj2 (proj2 (refreshBackendStatus_colour (λ _, false)))).
  - vm_compute. reflexivity.
Defined.

End BackendStatus.

(** ** What a submission and a deletion always do *)

Section AlwaysDone.
Import Portal Events.
Context `{Engine}.

(** X16.  Whatever the buffer and the mode, a submission leaves the
    state of the tab as it is (the buffer is kept, it is cleared on success
    only) and has exactly one outcome: one notice or one network call,
    never both and never neither. *)
Theorem handleSubmit_one_outcome (st : IngestionTab) (w : World) :
  (handleSubmit st w).1 = st
  ∧ ∃ e, effects (handleSubmit st w).2 = effects w ++ [e]
         ∧ (is_Post e ∨ ∃ msg, e = Alert msg).
Proof.
  destruct w as [now reads rnd draws eff]. unfold handleSubmit.
  destruct (blank (jsonInput st)); [split; [done|]; eexists; split; [done|]; eauto|].
  destruct (JSON_parse (jsonInput st)) as [e|v];
    [split; [done|]; eexists; split; [done|]; eauto|].
  destruct (ingestionType st).
  - unfold ensure_timestamp.
    destruct v as [|b|q|s|l|o]; try destruct (truthy_opt (o !! "timestamp"));
      (split; [done|]); eexists; (split; [simpl; reflexivity|]);
      first [left; exact I | right; eauto].
  - split; [done|]. eexists. split; [simpl; reflexivity|]. by left.
Qed.

(** X17.  With nothing pending, a deletion always writes the list it
    leaves to storage, also when no mock has the id and the list is
    therefore unchanged. *)
Theorem delete_always_writes (id' : string) (st : IngestionTab) (w : World) :
  committed st →
  effects (dispatch (handleDeleteCustomMock id') st w).2
  = effects w
    ++ [SetItem CUSTOM_MOCKS_STORAGE_KEY
          (JArr (Mock_to_json <$> filter (λ m, id m ≠ id') (customMocks st)))]
  ∧ (id' ∉ ids st →
     effects (dispatch (handleDeleteCustomMock id') st w).2
     = effects w ++ [SetItem CUSTOM_MOCKS_STORAGE_KEY (stored st)]).
Proof.
  intros Hc.
  assert (Hwrite : effects (dispatch (handleDeleteCustomMock id') st w).2
    = effects w
      ++ [SetItem CUSTOM_MOCKS_STORAGE_KEY
            (JArr (Mock_to_json <$> filter (λ m, id m ≠ id') (customMocks st)))]).
  { unfold dispatch, mbind, M_bind. simpl.
    match goal with |- context [persist_customMocks ?a ?b] =>
      destruct (persist_run a b) as [[Hcc _]|(_ & _ & _ & _ & _ & ->)] end.
    - unfold committed in Hcc, Hc. simpl in Hcc. lia.
    - by destruct w. }
  split; [done|]. intros Hfresh. rewrite Hwrite. unfold stored.
  rewrite filter_all; [done|]. intros m Hm Heq. apply Hfresh.
  rewrite <- Heq. by apply list_elem_of_fmap_2.
Qed.

End AlwaysDone.

Section AlwaysDoneExamples.
Import Portal Events Fixture.

Lemma delete_always_writes_witness :
  effects (dispatch (handleDeleteCustomMock "custom-9") (mounted two_mocks) ticking).2
  = [SetItem CUSTOM_MOCKS_STORAGE_KEY (JArr (Mock_to_json <$> two_mocks))].
Proof.
  destruct (delete_always_writes "custom-9" (mounted two_mocks) ticking eq_refl)
    as [_ Hsame].
  rewrite Hsame; [done|].
  intros Hin. vm_compute in Hin.
  repeat (apply elem_of_cons in Hin as [Hin|Hin]; [discriminate|]).
  by apply elem_of_nil in Hin.
Defined.

End AlwaysDoneExamples.
